(** * ANDES MCP server: session registry and time-domain result serializer

    A shallow embedding of [andes/mcp/utils/session.py],
    [andes/mcp/utils/serialization.py] (the time-domain part) and the
    [get_tds_results] tool of [andes/mcp/tools/results.py].

    Conventions of the embedding:
    - Python [int] is [Z]; [//] is [Z.div] (both floor, remainder with the
      sign of the divisor).
    - [time.time()] readings are [Z] ticks of an unspecified unit; the wall
      clock is an oracle in the world state, read once per call.
    - a [dict] is an association list in insertion order with unique keys.
    - the engine's float samples are an abstract type [V]: the serializer
      only moves them around. *)

From Stdlib Require Import String List ZArith Bool Arith Lia.
Import ListNotations.
Local Open Scope string_scope.
Local Open Scope Z_scope.

(** ** Python runtime fragments *)

Inductive exn : Type :=
| KeyError
| ValueError
| IndexError
| AttributeError.

Inductive result (A : Type) : Type :=
| Ok (a : A)
| Raise (e : exn).
Arguments Ok {A} a.
Arguments Raise {A} e.

Definition rbind {A B : Type} (r : result A) (k : A -> result B) : result B :=
  match r with
  | Ok a => k a
  | Raise e => Raise e
  end.

Notation "x <-? r ; k" := (rbind r (fun x => k))
  (at level 61, r at next level, right associativity).

(** A [dict] with string keys: insertion order is iteration order. *)
Definition dict (A : Type) : Type := list (string * A).

Fixpoint dict_get {A : Type} (k : string) (d : dict A) : option A :=
  match d with
  | [] => None
  | (k', v) :: rest => if String.eqb k k' then Some v else dict_get k rest
  end.

(** [d[k] = v]: an existing key keeps its position, a new key goes last. *)
Fixpoint dict_set {A : Type} (k : string) (v : A) (d : dict A) : dict A :=
  match d with
  | [] => [(k, v)]
  | (k', v') :: rest =>
      if String.eqb k k' then (k, v) :: rest else (k', v') :: dict_set k v rest
  end.

(** [del d[k]]: [None] stands for the [KeyError] of an absent key. *)
Fixpoint dict_del {A : Type} (k : string) (d : dict A) : option (dict A) :=
  match d with
  | [] => None
  | (k', v') :: rest =>
      if String.eqb k k' then Some rest
      else option_map (cons (k', v')) (dict_del k rest)
  end.

Definition dict_keys {A : Type} (d : dict A) : list string := map fst d.

Definition dict_mem {A : Type} (k : string) (d : dict A) : bool :=
  match dict_get k d with Some _ => true | None => false end.

(** [name in names] and [names.index(name)] on a list of strings. *)
Definition str_in (s : string) (l : list string) : bool :=
  existsb (String.eqb s) l.

Fixpoint str_index (s : string) (l : list string) : option nat :=
  match l with
  | [] => None
  | s' :: rest =>
      if String.eqb s s' then Some O else option_map S (str_index s rest)
  end.

(** Elements at positions [skip], [skip + n], [skip + 2n], ... *)
Fixpoint every_nth {A : Type} (n skip : nat) (l : list A) : list A :=
  match l with
  | [] => []
  | a :: rest =>
      match skip with
      | O => a :: every_nth n (n - 1) rest
      | S k => every_nth n k rest
      end
  end.

(** The extended slice [l[::step]]: a zero step raises [ValueError], a
    negative step walks from the last element backwards. *)
Definition py_slice_step {A : Type} (l : list A) (step : Z) : result (list A) :=
  if step =? 0 then Raise ValueError
  else if 0 <? step then Ok (every_nth (Z.to_nat step) 0 l)
  else Ok (every_nth (Z.to_nat (- step)) 0 (rev l)).

(** [min(keys, key=f)]: the first key, in iteration order, whose measure is
    minimal; [ValueError] on an empty iterable. *)
Fixpoint min_from {A : Type} (f : A -> Z) (best : A) (l : list A) : A :=
  match l with
  | [] => best
  | a :: rest => if f a <? f best then min_from f a rest else min_from f best rest
  end.

Definition py_min {A : Type} (f : A -> Z) (l : list A) : result A :=
  match l with
  | [] => Raise ValueError
  | a :: rest => Ok (min_from f a rest)
  end.

(** Ceiling of [a / b] for a positive [b]. *)
Definition ceil_div (a b : Z) : Z := (a + b - 1) / b.

(** ** config.py *)

Module MCPConfig.

Definition SESSION_TIMEOUT : Z := 3600.
Definition MAX_SESSIONS : Z := 100.
Definition MAX_RESULT_POINTS : Z := 10000.

End MCPConfig.

Section Andes.

(** Engine samples (floats) and the text [str(e)] of an exception. *)
Context {V : Type}.
Variable exn_str : exn -> string.

(** ** The engine objects read by the serializer *)

(** A numpy array of rank 1, or of rank 2 held column by column, so that
    [a[:, i]] is the [i]-th column. *)
Inductive ndarray : Type :=
| Arr1 (data : list V)
| Arr2 (cols : list (list V)).

Record TDS_t : Type := mkTDS {
  TDS_initialized : bool;
  TDS_busted : bool;
  TDS_exec_time : option V    (* absent when [hasattr] fails *)
}.

Record DAE_t : Type := mkDAE {
  ts_t : list V;
  ts_x : ndarray;
  ts_y : ndarray;
  x_name : list string;
  y_name : list string
}.

Record System : Type := mkSystem {
  sys_TDS : option TDS_t;     (* [None]: no attribute [TDS] *)
  sys_dae : DAE_t
}.

(** ** utils/serialization.py *)

Inductive pyval : Type :=
| PNone
| PBool (b : bool)
| PInt (z : Z)
| PStr (s : string)
| PFloat (v : V)
| PList (l : list V)
| PVars (d : dict (list V)).

Definition payload : Type := dict pyval.

(** Truth value of an object in a condition. *)
Definition truthy (v : pyval) : bool :=
  match v with
  | PNone => false
  | PBool b => b
  | PInt z => negb (z =? 0)
  | PStr s => negb (String.eqb s "")
  | PFloat _ => true
  | PList l => match l with [] => false | _ => true end
  | PVars d => match d with [] => false | _ => true end
  end.

(** [numpy_to_python] on a rank-1 array of floats is [tolist()]. *)
Definition numpy_to_python (a : list V) : list V := a.

(** [a[:, idx]] *)
Definition column (a : ndarray) (idx : nat) : result (list V) :=
  match a with
  | Arr1 _ => Raise IndexError
  | Arr2 cols =>
      match nth_error cols idx with
      | Some c => Ok c
      | None => Raise IndexError
      end
  end.

(** [var_data] is either the whole state array or a list of columns. *)
Inductive var_source : Type :=
| FromArray (a : ndarray)
| FromList (l : list (list V)).

(** Lines 187-199: the requested names, states before algebraics, unknown
    names dropped. *)
Fixpoint filter_requested (dae : DAE_t) (variables : list string)
  : result (list string * list (list V)) :=
  match variables with
  | [] => Ok ([], [])
  | var_name :: rest =>
      if str_in var_name (x_name dae) then
        match str_index var_name (x_name dae) with
        | Some idx =>
            c <-? column (ts_x dae) idx ;
            r <-? filter_requested dae rest ;
            Ok (var_name :: fst r, c :: snd r)
        | None => Raise ValueError
        end
      else if str_in var_name (y_name dae) then
        match str_index var_name (y_name dae) with
        | Some idx =>
            c <-? column (ts_y dae) idx ;
            r <-? filter_requested dae rest ;
            Ok (var_name :: fst r, c :: snd r)
        | None => Raise ValueError
        end
      else filter_requested dae rest
  end.

Definition select_variables (dae : DAE_t) (variables : option (list string))
  : result (list string * var_source) :=
  match variables with
  | None => Ok (x_name dae, FromArray (ts_x dae))
  | Some vs =>
      r <-? filter_requested dae vs ;
      Ok (fst r, FromList (snd r))
  end.

(** [max_points and len(time_array) > max_points] *)
Definition downsampling_applies (max_points : option Z) (len : nat) : bool :=
  match max_points with
  | None => false
  | Some m => negb (m =? 0) && (m <? Z.of_nat len)
  end.

(** Lines 201-208. *)
Definition apply_downsampling (time_array : list V) (max_points : option Z)
    (results : payload) : result payload :=
  match max_points with
  | Some m =>
      if downsampling_applies (Some m) (length time_array) then
        let step := Z.of_nat (length time_array) / m in
        sl <-? py_slice_step time_array step ;
        Ok (dict_set "downsample_factor" (PInt step)
             (dict_set "downsampled" (PBool true)
               (dict_set "time" (PList sl) results)))
      else Ok (dict_set "downsampled" (PBool false) results)
  | None => Ok (dict_set "downsampled" (PBool false) results)
  end.

(** Lines 212-215: the data of the [i]-th selected variable. *)
Definition variable_data (var_data : var_source) (i : nat) : result (list V) :=
  match var_data with
  | FromList l =>
      match nth_error l i with
      | Some c => Ok c
      | None => Raise IndexError
      end
  | FromArray (Arr2 cols) =>
      match nth_error cols i with
      | Some c => Ok c
      | None => Raise IndexError
      end
  | FromArray (Arr1 data) => Ok data
  end.

(** Lines 217-218. *)
Definition downsample_data (results : payload) (data : list V)
  : result (list V) :=
  match dict_get "downsampled" results with
  | Some flag =>
      if truthy flag then
        match dict_get "downsample_factor" results with
        | Some (PInt step) => py_slice_step data step
        | _ => Raise KeyError
        end
      else Ok data
  | None => Ok data
  end.

(** Line 220: [results["variables"][name] = ...] *)
Definition set_variable (name : string) (data : list V) (results : payload)
  : result payload :=
  match dict_get "variables" results with
  | Some (PVars d) => Ok (dict_set "variables" (PVars (dict_set name data d)) results)
  | _ => Raise KeyError
  end.

(** Lines 211-220: the loop over [enumerate(var_names)], from index [i]. *)
Fixpoint add_variables (i : nat) (var_names : list string)
    (var_data : var_source) (results : payload) : result payload :=
  match var_names with
  | [] => Ok results
  | name :: rest =>
      data <-? variable_data var_data i ;
      data' <-? downsample_data results data ;
      results' <-? set_variable name (numpy_to_python data') results ;
      add_variables (S i) rest var_data results'
  end.

Definition serialize_tds_results (system : System)
    (variables : option (list string)) (max_points : option Z)
  : result payload :=
  match sys_TDS system with
  | None => Raise AttributeError
  | Some tds =>
      if negb (TDS_initialized tds) then
        Ok [("initialized", PBool false);
            ("error", PStr "Time-domain simulation not initialized")]
      else
        let dae := sys_dae system in
        let time_array := numpy_to_python (ts_t dae) in
        let results :=
          [("initialized", PBool true);
           ("converged", PBool (negb (TDS_busted tds)));
           ("exec_time",
             match TDS_exec_time tds with Some v => PFloat v | None => PNone end);
           ("time", PList time_array);
           ("n_points", PInt (Z.of_nat (length time_array)));
           ("variables", PVars [])] in
        sel <-? select_variables dae variables ;
        results1 <-? apply_downsampling time_array max_points results ;
        add_variables 0 (fst sel) (snd sel) results1
  end.

(** ** utils/session.py *)

Record Session : Type := mkSession {
  session_id : string;
  system : System;
  case_path : string;
  created_at : Z;
  last_accessed : Z
  (* [metadata] starts empty and is never read or written *)
}.

Record SessionManager : Type := mkSessionManager {
  sessions : dict Session;
  max_sessions : Z;
  timeout : Z
}.

(** The process state: the global manager and the wall clock, whose
    [ticks]-th reading is [clock ticks]. *)
Record World : Type := mkWorld {
  manager : SessionManager;
  clock : nat -> Z;
  ticks : nat
}.

(** Computations that read the clock, mutate the registry and may raise;
    mutations made before a raise stay. *)
Definition M (A : Type) : Type := World -> result A * World.

Definition ret {A : Type} (a : A) : M A := fun w => (Ok a, w).

Definition bind {A B : Type} (m : M A) (k : A -> M B) : M B :=
  fun w =>
    match m w with
    | (Ok a, w') => k a w'
    | (Raise e, w') => (Raise e, w')
    end.

Definition raise {A : Type} (e : exn) : M A := fun w => (Raise e, w).

Notation "x <- m ;; k" := (bind m (fun x => k))
  (at level 61, m at next level, right associativity).
Notation "m ;; k" := (bind m (fun _ => k))
  (at level 61, right associativity).

(** [time.time()] *)
Definition time_time : M Z :=
  fun w => (Ok (clock w (ticks w)),
            mkWorld (manager w) (clock w) (S (ticks w))).

Definition get_sessions : M (dict Session) :=
  fun w => (Ok (sessions (manager w)), w).

Definition put_sessions (d : dict Session) : M unit :=
  fun w =>
    (Ok tt,
     mkWorld (mkSessionManager d (max_sessions (manager w)) (timeout (manager w)))
             (clock w) (ticks w)).

Definition get_max_sessions : M Z := fun w => (Ok (max_sessions (manager w)), w).
Definition get_timeout : M Z := fun w => (Ok (timeout (manager w)), w).

(** [del self.sessions[sid]] *)
Definition del_session (sid : string) : M unit :=
  d <- get_sessions ;;
  match dict_del sid d with
  | Some d' => put_sessions d'
  | None => raise KeyError
  end.

(** [Session.__init__] reads the clock twice. *)
Definition Session_init (sid : string) (sys : System) (path : string)
  : M Session :=
  t1 <- time_time ;;
  t2 <- time_time ;;
  ret (mkSession sid sys path t1 t2).

(** [Session.is_expired] *)
Definition is_expired (s : Session) (tmo : Z) : M bool :=
  now <- time_time ;;
  ret (tmo <? now - last_accessed s).

(** [Session.touch], on the object the registry holds under [sid]: the
    caller's reference and the registry entry are the same object. *)
Definition touch (sid : string) (s : Session) : M Session :=
  now <- time_time ;;
  let s' := mkSession (session_id s) (system s) (case_path s)
                      (created_at s) now in
  d <- get_sessions ;;
  put_sessions (dict_set sid s' d) ;;
  ret s'.

(** The comprehension of [_cleanup_expired]: one clock reading per item. *)
Fixpoint expired_ids (tmo : Z) (items : dict Session) : M (list string) :=
  match items with
  | [] => ret []
  | (sid, s) :: rest =>
      e <- is_expired s tmo ;;
      r <- expired_ids tmo rest ;;
      ret (if e then sid :: r else r)
  end.

Fixpoint del_sessions (ids : list string) : M unit :=
  match ids with
  | [] => ret tt
  | sid :: rest => del_session sid ;; del_sessions rest
  end.

Definition _cleanup_expired : M unit :=
  d <- get_sessions ;;
  tmo <- get_timeout ;;
  expired <- expired_ids tmo d ;;
  del_sessions expired.

(** [min(self.sessions.keys(), key=lambda k: self.sessions[k].last_accessed)]:
    each key is looked up in the dict it came from, so the measure of a key
    is the [last_accessed] of its own entry. *)
Definition oldest_id (d : dict Session) : result string :=
  r <-? py_min (fun kv : string * Session => last_accessed (snd kv)) d ;
  Ok (fst r).

(** [uuid4] is the string that [str(uuid.uuid4())] evaluates to. *)
Definition create_session (sys : System) (path : string) (uuid4 : string)
  : M string :=
  _cleanup_expired ;;
  d <- get_sessions ;;
  cap <- get_max_sessions ;;
  (if cap <=? Z.of_nat (length d) then
     match oldest_id d with
     | Ok oldest => del_session oldest
     | Raise e => raise e
     end
   else ret tt) ;;
  s <- Session_init uuid4 sys path ;;
  d' <- get_sessions ;;
  put_sessions (dict_set uuid4 s d') ;;
  ret uuid4.

Definition get_session (sid : string) : M (option Session) :=
  d <- get_sessions ;;
  match dict_get sid d with
  | Some s =>
      tmo <- get_timeout ;;
      e <- is_expired s tmo ;;
      if e then del_session sid ;; ret None
      else s' <- touch sid s ;; ret (Some s')
  | None => ret None
  end.

Definition get_system (sid : string) : M (option System) :=
  s <- get_session sid ;;
  ret (option_map system s).

Definition close_session (sid : string) : M bool :=
  d <- get_sessions ;;
  if dict_mem sid d then del_session sid ;; ret true
  else ret false.

(** One row of [list_sessions]: id, case path, creation and access times. *)
Definition session_row (kv : string * Session) : string * string * Z * Z :=
  (fst kv, case_path (snd kv), created_at (snd kv), last_accessed (snd kv)).

Definition list_sessions : M (list (string * string * Z * Z)) :=
  _cleanup_expired ;;
  d <- get_sessions ;;
  ret (map session_row d).

(** [SessionManager.__init__] *)
Definition SessionManager_init (cap tmo : Z) : SessionManager :=
  mkSessionManager [] cap tmo.

(** [get_session_manager] on first use. *)
Definition default_manager : SessionManager :=
  SessionManager_init MCPConfig.MAX_SESSIONS MCPConfig.SESSION_TIMEOUT.

(** ** tools/results.py *)

Definition get_tds_results (sid : string) (variables : option (list string))
    (max_points : option Z) : M payload :=
  sys <- get_system sid ;;
  match sys with
  | None =>
      ret [("success", PBool false);
           ("error", PStr ("Session not found: " ++ sid))]
  | Some sy =>
      match sys_TDS sy with
      | None =>
          ret [("success", PBool false);
               ("error", PStr "Time-domain simulation routine not available")]
      | Some _ =>
          let max_points' :=
            match max_points with
            | None => Some MCPConfig.MAX_RESULT_POINTS
            | Some m => Some m
            end in
          match serialize_tds_results sy variables max_points' with
          | Ok results => ret (dict_set "success" (PBool true) results)
          | Raise e =>
              ret [("success", PBool false);
                   ("error", PStr ("Error retrieving TDS results: " ++ exn_str e))]
          end
      end
  end.

(** ** Traces of registry operations *)

Inductive op : Type :=
| OpCreate (sys : System) (path : string) (uuid4 : string)
| OpGet (sid : string)
| OpClose (sid : string)
| OpList.

(** The world after one call, whatever it returned or raised. *)
Definition run_op (o : op) (w : World) : World :=
  match o with
  | OpCreate sys path u => snd (create_session sys path u w)
  | OpGet sid => snd (get_session sid w)
  | OpClose sid => snd (close_session sid w)
  | OpList => snd (list_sessions w)
  end.

Definition run_ops (os : list op) (w : World) : World :=
  fold_left (fun w o => run_op o w) os w.

Definition init_world (cap tmo : Z) (clk : nat -> Z) : World :=
  mkWorld (SessionManager_init cap tmo) clk 0.

(** ** Vocabulary of the statements *)

(** The stride in force: [len // max_points] when the guard of line 202
    holds, none otherwise. *)
Definition stride_of (max_points : option Z) (len : nat) : option Z :=
  match max_points with
  | Some m =>
      if downsampling_applies (Some m) len then Some (Z.of_nat len / m)
      else None
  | None => None
  end.

(** An array as the payload carries it under a given stride. *)
Definition resample (stride : option Z) (l : list V) : result (list V) :=
  match stride with
  | Some k => py_slice_step l k
  | None => Ok l
  end.

(** The engine's shape contract: rank-2 state and algebraic arrays with one
    column per name and one row per time point. *)
Definition columns_ok (a : ndarray) (names : list string) (rows : nat) : Prop :=
  match a with
  | Arr1 _ => False
  | Arr2 cols =>
      length cols = length names /\
      Forall (fun c => length c = rows) cols
  end.

Definition shape_ok (dae : DAE_t) : Prop :=
  columns_ok (ts_x dae) (x_name dae) (length (ts_t dae)) /\
  columns_ok (ts_y dae) (y_name dae) (length (ts_t dae)).

(** The payload fields the claims read. *)
Definition payload_time (p : payload) : option (list V) :=
  match dict_get "time" p with
  | Some (PList l) => Some l
  | _ => None
  end.

Definition payload_variables (p : payload) : option (dict (list V)) :=
  match dict_get "variables" p with
  | Some (PVars d) => Some d
  | _ => None
  end.


(** The keys that the comprehension of [_cleanup_expired] collects, and the
    registry its deletions leave, when the [n]-th clock reading is the
    first one taken. *)
Fixpoint stale_keys (clk : nat -> Z) (n : nat) (tmo : Z) (d : dict Session)
  : list string :=
  match d with
  | [] => []
  | (sid, s) :: rest =>
      if tmo <? clk n - last_accessed s
      then sid :: stale_keys clk (S n) tmo rest
      else stale_keys clk (S n) tmo rest
  end.

Fixpoint sweep (clk : nat -> Z) (n : nat) (tmo : Z) (d : dict Session)
  : dict Session :=
  match d with
  | [] => []
  | (sid, s) :: rest =>
      if tmo <? clk n - last_accessed s
      then sweep clk (S n) tmo rest
      else (sid, s) :: sweep clk (S n) tmo rest
  end.

(** A world with the registry replaced and the clock advanced. *)
Definition world_with (w : World) (d : dict Session) (n : nat) : World :=
  mkWorld (mkSessionManager d (max_sessions (manager w)) (timeout (manager w)))
          (clock w) n.

(** The registry of a world, and its representation invariant. *)
Definition registry (w : World) : dict Session := sessions (manager w).

Definition registry_ok (w : World) : Prop := NoDup (dict_keys (registry w)).


(** [Session.touch] as a function of the reading it stores. *)
Definition touched (s : Session) (now : Z) : Session :=
  mkSession (session_id s) (system s) (case_path s) (created_at s) now.

(** What every registry operation maintains: unique keys, and a registry
    that is empty or within capacity. *)
Definition registry_inv (w : World) : Prop :=
  registry_ok w /\
  (registry w = [] \/
   Z.of_nat (length (registry w)) <= max_sessions (manager w)).


(** Lines 192-199 for one requested name: the state column when the name
    is a state name, else the algebraic column when it is an algebraic
    name. *)
Definition known_name (dae : DAE_t) (name : string) : bool :=
  str_in name (x_name dae) || str_in name (y_name dae).

Definition requested_column (dae : DAE_t) (name : string)
  : result (list V) :=
  if str_in name (x_name dae) then
    match str_index name (x_name dae) with
    | Some idx => column (ts_x dae) idx
    | None => Raise ValueError
    end
  else
    match str_index name (y_name dae) with
    | Some idx => column (ts_y dae) idx
    | None => Raise ValueError
    end.


(** ** utils/serialization.py: [numpy_to_python] on arbitrary objects *)

(** The elements of a numpy array, and an array of any rank: a rank-0
    array is one element, a rank-[n+1] array a sequence of rank-[n] ones. *)
Inductive npscalar : Type :=
| NpInt (z : Z)
| NpFloat (v : V)
| NpBool (b : bool).

#[warning="-register-all"] Inductive nd : Type :=
| NdItem (s : npscalar)
| NdAxis (items : list nd).

(** The objects [numpy_to_python] tells apart: the four numpy kinds it
    converts, dicts, lists and tuples it descends into, and everything
    else, which it returns as it is. Dict keys are strings. *)
#[warning="-register-all"] Inductive pyobj : Type :=
| ONdarray (a : nd)           (* np.ndarray *)
| ONpInteger (z : Z)          (* np.integer *)
| ONpFloating (v : V)         (* np.floating *)
| ONpBool (b : bool)          (* np.bool_ *)
| ONone
| OBool (b : bool)
| OInt (z : Z)
| OFloat (v : V)
| OStr (s : string)
| OOther (tag : nat)          (* an object of any other type *)
| ODict (d : list (string * pyobj))
| OList (l : list pyobj)
| OTuple (l : list pyobj).

(** [x.item()] *)
Definition item (s : npscalar) : pyobj :=
  match s with
  | NpInt z => OInt z
  | NpFloat v => OFloat v
  | NpBool b => OBool b
  end.

(** [a.tolist()] *)
Fixpoint tolist (a : nd) : pyobj :=
  match a with
  | NdItem s => item s
  | NdAxis items => OList (map tolist items)
  end.

(** [numpy_to_python], lines 21-31. The rank-1 float case used by the
    time-domain serializer is [numpy_to_python] above. *)
Fixpoint numpy_to_python_obj (obj : pyobj) : pyobj :=
  match obj with
  | ONdarray a => tolist a
  | ONpInteger z => OInt z
  | ONpFloating v => OFloat v
  | ONpBool b => OBool b
  | ODict d => ODict (map (fun kv => (fst kv, numpy_to_python_obj (snd kv))) d)
  | OList l => OList (map numpy_to_python_obj l)
  | OTuple l => OList (map numpy_to_python_obj l)
  | _ => obj
  end.


(** ** tools/results.py: [list_tds_variables] *)

Definition list_tds_variables (sid : string) : M (dict pyobj) :=
  sys <- get_system sid ;;
  match sys with
  | None =>
      ret [("success", OBool false);
           ("error", OStr ("Session not found: " ++ sid))]
  | Some sy =>
      match sys_TDS sy with
      | None =>
          (* [system.TDS] raises AttributeError, caught by the handler *)
          ret [("success", OBool false);
               ("error", OStr ("Error listing variables: "
                               ++ exn_str AttributeError))]
      | Some tds =>
          if negb (TDS_initialized tds) then
            ret [("success", OBool false);
                 ("error", OStr "Time-domain simulation not initialized")]
          else
            ret [("success", OBool true);
                 ("state_variables", OList (map OStr (x_name (sys_dae sy))));
                 ("algebraic_variables", OList (map OStr (y_name (sys_dae sy))));
                 ("n_states", OInt (Z.of_nat (length (x_name (sys_dae sy)))));
                 ("n_algebraic", OInt (Z.of_nat (length (y_name (sys_dae sy)))))]
      end
  end.

(** ** tools/simulation.py: the [close_session] tool *)

Definition tool_close_session (sid : string) : M (dict pyobj) :=
  closed <- close_session sid ;;
  if closed then
    ret [("success", OBool true);
         ("message", OStr ("Session " ++ sid ++ " closed successfully"))]
  else
    ret [("success", OBool false);
         ("error", OStr ("Session not found: " ++ sid))].


(** * Properties *)

Local Open Scope list_scope.

(** ** Slices *)

Lemma every_nth_nth_error {A : Type} (n : nat) (l : list A) :
  (1 <= n)%nat ->
  forall k i, nth_error (every_nth n k l) i = nth_error l (k + i * n)%nat.
Proof.
  intros Hn. induction l as [|a rest IH]; intros k i.
  - simpl. now destruct i; destruct (k + _)%nat.
  - destruct k as [|k]; simpl.
    + destruct i as [|i]; simpl; [reflexivity|].
      rewrite IH. destruct n as [|n]; [lia|].
      simpl. f_equal. lia.
    + apply IH.
Qed.

Lemma every_nth_length {A : Type} (n : nat) (l : list A) :
  (1 <= n)%nat ->
  forall k, length (every_nth n k l) = ((length l - k + (n - 1)) / n)%nat.
Proof.
  intros Hn. induction l as [|a rest IH]; intros k.
  - simpl. symmetry. apply Nat.div_small. lia.
  - destruct k as [|k]; simpl length.
    + rewrite IH.
      replace (S (length rest) - 0 + (n - 1))%nat
        with (length rest + 1 * n)%nat by lia.
      rewrite Nat.div_add by lia.
      destruct (le_lt_dec (n - 1) (length rest)) as [Hle|Hlt].
      * replace (length rest - (n - 1) + (n - 1))%nat with (length rest) by lia.
        lia.
      * replace (length rest - (n - 1) + (n - 1))%nat with (n - 1)%nat by lia.
        rewrite !Nat.div_small by lia. lia.
    + rewrite IH. reflexivity.
Qed.

Lemma every_nth_one {A : Type} (l : list A) : every_nth 1 0 l = l.
Proof. induction l as [|a rest IH]; simpl; [reflexivity|now rewrite IH]. Qed.

(** A positive step keeps [ceil(len / step)] elements. *)
Lemma py_slice_step_pos_length {A : Type} (l : list A) (step : Z) :
  0 < step ->
  exists sl, py_slice_step l step = Ok sl /\
             Z.of_nat (length sl) = ceil_div (Z.of_nat (length l)) step.
Proof.
  intros Hs. unfold py_slice_step.
  destruct (Z.eqb_spec step 0); [lia|].
  destruct (Z.ltb_spec 0 step); [|lia].
  eexists; split; [reflexivity|].
  rewrite every_nth_length by lia.
  unfold ceil_div. rewrite Nat.sub_0_r, Nat2Z.inj_div, Nat2Z.inj_add.
  rewrite Nat2Z.inj_sub by lia. rewrite Z2Nat.id by lia.
  f_equal. lia.
Qed.

Lemma py_slice_step_pos_nth {A : Type} (l sl : list A) (step : Z) :
  0 < step -> py_slice_step l step = Ok sl ->
  forall i, nth_error sl i = nth_error l (i * Z.to_nat step)%nat.
Proof.
  intros Hs. unfold py_slice_step.
  destruct (Z.eqb_spec step 0); [lia|].
  destruct (Z.ltb_spec 0 step); [|lia].
  intros [= <-] i. now rewrite every_nth_nth_error by lia.
Qed.

Lemma py_slice_step_one {A : Type} (l : list A) : py_slice_step l 1 = Ok l.
Proof. unfold py_slice_step. simpl. now rewrite every_nth_one. Qed.

(** Floor and ceiling facts behind the stride. *)
Lemma stride_pos (len m : Z) : 0 < m -> m < len -> 1 <= len / m.
Proof.
  intros Hm Hl. apply Z.div_le_lower_bound; lia.
Qed.

Lemma stride_ge_2_iff (len m : Z) : 0 < m -> (2 <= len / m <-> 2 * m <= len).
Proof.
  intros Hm. split; intros H.
  - pose proof (Z.mul_div_le len m Hm). nia.
  - apply Z.div_le_lower_bound; lia.
Qed.

Lemma ceil_div_stride_lt (len m : Z) :
  0 < m -> m < len -> ceil_div len (len / m) < 2 * m.
Proof.
  intros Hm Hl. pose proof (stride_pos len m Hm Hl) as Hs.
  unfold ceil_div. apply Z.div_lt_upper_bound; [lia|].
  pose proof (Z.div_mod len m ltac:(lia)) as E.
  pose proof (Z.mod_pos_bound len m Hm) as B.
  nia.
Qed.

Lemma ceil_div_stride_le_iff (len m : Z) :
  0 < m -> m < len ->
  (ceil_div len (len / m) <= m <-> len mod m = 0).
Proof.
  intros Hm Hl. pose proof (stride_pos len m Hm Hl) as Hs.
  pose proof (Z.div_mod len m ltac:(lia)) as E.
  pose proof (Z.mod_pos_bound len m Hm) as B.
  unfold ceil_div. split; intros H.
  - destruct (Z.eq_dec (len mod m) 0) as [|Hne]; [assumption|exfalso].
    assert (m + 1 <= (len + len / m - 1) / (len / m)); [|lia].
    apply Z.div_le_lower_bound; [lia|]. nia.
  - assert ((len + len / m - 1) / (len / m) < m + 1); [|lia].
    apply Z.div_lt_upper_bound; [lia|]. nia.
Qed.


(** ** Dictionaries *)

Lemma dict_get_set_eq {A : Type} (k : string) (v : A) (d : dict A) :
  dict_get k (dict_set k v d) = Some v.
Proof.
  induction d as [|[k' v'] rest IH]; simpl.
  - now rewrite String.eqb_refl.
  - destruct (String.eqb_spec k k') as [->|Hne]; simpl.
    + now rewrite String.eqb_refl.
    + destruct (String.eqb_spec k k'); [contradiction|exact IH].
Qed.

Lemma dict_get_set_neq {A : Type} (k k' : string) (v : A) (d : dict A) :
  k <> k' -> dict_get k (dict_set k' v d) = dict_get k d.
Proof.
  intros Hne. induction d as [|[k0 v0] rest IH]; simpl.
  - destruct (String.eqb_spec k k'); [contradiction|reflexivity].
  - destruct (String.eqb_spec k' k0) as [->|Hne']; simpl.
    + destruct (String.eqb_spec k k0); [contradiction|reflexivity].
    + destruct (String.eqb_spec k k0); [reflexivity|exact IH].
Qed.

Lemma dict_get_In {A : Type} (k : string) (v : A) (d : dict A) :
  dict_get k d = Some v -> In (k, v) d.
Proof.
  induction d as [|[k' v'] rest IH]; simpl; [discriminate|].
  destruct (String.eqb_spec k k') as [->|Hne].
  - intros [= ->]. now left.
  - intros H. right. now apply IH.
Qed.

Lemma dict_get_None_keys {A : Type} (k : string) (d : dict A) :
  dict_get k d = None <-> ~ In k (dict_keys d).
Proof.
  induction d as [|[k' v'] rest IH]; simpl.
  - split; [intros _ []|reflexivity].
  - destruct (String.eqb_spec k k') as [->|Hne].
    + split; [discriminate|]. intros H. exfalso. apply H. now left.
    + rewrite IH. split; intros H; [intros [E|E]; [congruence|now apply H]|].
      intros E. apply H. now right.
Qed.

Lemma In_dict_get {A : Type} (k : string) (v : A) (d : dict A) :
  NoDup (dict_keys d) -> In (k, v) d -> dict_get k d = Some v.
Proof.
  induction d as [|[k' v'] rest IH]; simpl; [intros _ []|].
  intros Hnd [E|Hin]; inversion Hnd as [|? ? Hnotin Hnd']; subst.
  - inversion E; subst. now rewrite String.eqb_refl.
  - destruct (String.eqb_spec k k') as [->|Hne].
    + exfalso. apply Hnotin. change k' with (fst (k', v)). now apply in_map.
    + now apply IH.
Qed.

Lemma dict_set_In {A : Type} (k n : string) (v x : A) (d : dict A) :
  In (n, x) (dict_set k v d) -> (n, x) = (k, v) \/ In (n, x) d.
Proof.
  induction d as [|[k' v'] rest IH]; simpl.
  - intros [E|[]]. now left.
  - destruct (String.eqb_spec k k') as [->|Hne]; simpl.
    + intros [E|H]; [now left|right; now right].
    + intros [E|H]; [right; now left|].
      destruct (IH H) as [E|H']; [now left|right; now right].
Qed.

Lemma dict_keys_set {A : Type} (k : string) (v : A) (d : dict A) :
  dict_keys (dict_set k v d) =
  if dict_mem k d then dict_keys d else (dict_keys d ++ [k])%list.
Proof.
  unfold dict_mem. induction d as [|[k' v'] rest IH]; simpl; [reflexivity|].
  destruct (String.eqb_spec k k') as [->|Hne]; simpl; [reflexivity|].
  rewrite IH. now destruct (dict_get k rest).
Qed.

Lemma dict_set_length {A : Type} (k : string) (v : A) (d : dict A) :
  length (dict_set k v d) =
  if dict_mem k d then length d else S (length d).
Proof.
  unfold dict_mem. induction d as [|[k' v'] rest IH]; simpl; [reflexivity|].
  destruct (String.eqb_spec k k') as [->|Hne]; simpl; [reflexivity|].
  rewrite IH. now destruct (dict_get k rest).
Qed.

Lemma dict_set_NoDup {A : Type} (k : string) (v : A) (d : dict A) :
  NoDup (dict_keys d) -> NoDup (dict_keys (dict_set k v d)).
Proof.
  intros Hnd. rewrite dict_keys_set. unfold dict_mem.
  destruct (dict_get k d) eqn:E; [assumption|].
  apply dict_get_None_keys in E.
  apply NoDup_app; [assumption|repeat constructor; intros []| ].
  intros x Hx [<-|[]]. contradiction.
Qed.

Lemma dict_del_present {A : Type} (k : string) (v : A) (d : dict A) :
  dict_get k d = Some v -> exists d', dict_del k d = Some d'.
Proof.
  induction d as [|[k' v'] rest IH]; simpl; [discriminate|].
  destruct (String.eqb_spec k k') as [->|Hne]; [eauto|].
  intros H. destruct (IH H) as [d' ->]. simpl. eauto.
Qed.

Lemma dict_del_length {A : Type} (k : string) (d d' : dict A) :
  dict_del k d = Some d' -> length d = S (length d').
Proof.
  revert d'. induction d as [|[k' v'] rest IH]; simpl; [discriminate|].
  intros d'. destruct (String.eqb_spec k k') as [->|Hne].
  - now intros [= ->].
  - destruct (dict_del k rest) as [r|]; simpl; [|discriminate].
    intros [= <-]. simpl. f_equal. now apply IH.
Qed.

Lemma dict_del_In {A : Type} (k : string) (d d' : dict A) :
  dict_del k d = Some d' -> forall kv, In kv d' -> In kv d.
Proof.
  revert d'. induction d as [|[k' v'] rest IH]; simpl; [discriminate|].
  intros d'. destruct (String.eqb_spec k k') as [->|Hne].
  - intros [= ->] kv H. now right.
  - destruct (dict_del k rest) as [r|]; simpl; [|discriminate].
    intros [= <-] kv [E|H]; [now left|right; now apply (IH r)].
Qed.

Lemma dict_del_get_neq {A : Type} (k k' : string) (d d' : dict A) :
  dict_del k d = Some d' -> k' <> k -> dict_get k' d' = dict_get k' d.
Proof.
  revert d'. induction d as [|[k0 v0] rest IH]; simpl; [discriminate|].
  intros d'. destruct (String.eqb_spec k k0) as [->|Hne].
  - intros [= ->] Hk. destruct (String.eqb_spec k' k0); [contradiction|reflexivity].
  - destruct (dict_del k rest) as [r|]; simpl; [|discriminate].
    intros [= <-] Hk. simpl.
    destruct (String.eqb_spec k' k0); [reflexivity|now apply IH].
Qed.

Lemma dict_del_NoDup {A : Type} (k : string) (d d' : dict A) :
  dict_del k d = Some d' -> NoDup (dict_keys d) ->
  NoDup (dict_keys d') /\ dict_get k d' = None.
Proof.
  revert d'. induction d as [|[k0 v0] rest IH]; simpl; [discriminate|].
  intros d'. destruct (String.eqb_spec k k0) as [->|Hne].
  - intros [= ->] Hnd. inversion Hnd; subst. split; [assumption|].
    now apply dict_get_None_keys.
  - destruct (dict_del k rest) as [r|] eqn:E; simpl; [|discriminate].
    intros [= <-] Hnd. inversion Hnd as [|? ? Hnotin Hnd']; subst.
    destruct (IH r eq_refl Hnd') as [Hr Hk]. split.
    + simpl. constructor; [|assumption].
      intros Hin. apply Hnotin. unfold dict_keys in *.
      apply in_map_iff in Hin. destruct Hin as [kv [E1 E2]].
      apply in_map_iff. exists kv. split; [assumption|].
      now apply (dict_del_In k rest r).
    + simpl. destruct (String.eqb_spec k k0); [contradiction|assumption].
Qed.


(** ** The serializer *)

Lemma str_index_in (s : string) (l : list string) :
  str_in s l = true -> exists i, str_index s l = Some i /\ (i < length l)%nat.
Proof.
  induction l as [|s' rest IH]; simpl; [discriminate|].
  destruct (String.eqb_spec s s') as [->|Hne]; simpl.
  - intros _. exists O. split; [reflexivity|lia].
  - intros H. destruct (IH H) as [i [-> Hi]]. exists (S i). split; [reflexivity|lia].
Qed.

Lemma downsample_data_resample (mp : option Z) (len : nat) (r : payload) :
  dict_get "downsampled" r =
    Some (PBool (match stride_of mp len with Some _ => true | None => false end)) ->
  dict_get "downsample_factor" r = option_map PInt (stride_of mp len) ->
  forall data, downsample_data r data = resample (stride_of mp len) data.
Proof.
  intros Hd Hf data. unfold downsample_data, resample. rewrite Hd, Hf.
  now destruct (stride_of mp len).
Qed.

Lemma set_variable_inv (name : string) (data : list V) (r r' : payload) :
  set_variable name data r = Ok r' ->
  exists d, dict_get "variables" r = Some (PVars d) /\
            r' = dict_set "variables" (PVars (dict_set name data d)) r.
Proof.
  unfold set_variable.
  destruct (dict_get "variables" r) as [[]|]; try discriminate.
  intros [= <-]. eauto.
Qed.

Lemma add_variables_other (src : var_source) (names : list string) :
  forall i r r', add_variables i names src r = Ok r' ->
  forall k, k <> "variables" -> dict_get k r' = dict_get k r.
Proof.
  induction names as [|name rest IH]; simpl; intros i r r' H k Hk.
  - now inversion H.
  - unfold rbind in H.
    destruct (variable_data src i) as [col|]; [|discriminate].
    destruct (downsample_data r col) as [data|]; [|discriminate].
    destruct (set_variable name (numpy_to_python data) r) as [r1|] eqn:E;
      [|discriminate].
    apply set_variable_inv in E. destruct E as [d [_ ->]].
    rewrite (IH _ _ _ H k Hk). now apply dict_get_set_neq.
Qed.

Lemma dict_mem_set {A : Type} (k k' : string) (v : A) (d : dict A) :
  dict_mem k (dict_set k' v d) = (String.eqb k k' || dict_mem k d)%bool.
Proof.
  unfold dict_mem. destruct (String.eqb_spec k k') as [->|Hne].
  - now rewrite dict_get_set_eq.
  - now rewrite dict_get_set_neq.
Qed.

Lemma add_variables_vars (src : var_source) (names : list string) :
  forall i r r' d,
  dict_get "variables" r = Some (PVars d) ->
  add_variables i names src r = Ok r' ->
  exists d',
    dict_get "variables" r' = Some (PVars d') /\
    (forall name data, In (name, data) d' ->
       In (name, data) d \/
       exists j col, nth_error names j = Some name /\
                     variable_data src (i + j) = Ok col /\
                     downsample_data r col = Ok data) /\
    (forall name, In name names \/ dict_mem name d = true ->
                  dict_mem name d' = true).
Proof.
  induction names as [|name rest IH]; simpl; intros i r r' d Hd H.
  - inversion H; subst. exists d. split; [assumption|]. split.
    + intros n x Hin. now left.
    + intros n [[]|Hm]. assumption.
  - unfold rbind in H.
    destruct (variable_data src i) as [col|] eqn:Ecol; [|discriminate].
    destruct (downsample_data r col) as [data|] eqn:Eds; [|discriminate].
    destruct (set_variable name (numpy_to_python data) r) as [r1|] eqn:E;
      [|discriminate].
    apply set_variable_inv in E. destruct E as [d0 [Hd0 ->]].
    rewrite Hd in Hd0. inversion Hd0; subst d0. clear Hd0.
    assert (Hd1 : dict_get "variables"
                    (dict_set "variables" (PVars (dict_set name data d)) r)
                  = Some (PVars (dict_set name data d)))
      by apply dict_get_set_eq.
    destruct (IH _ _ _ _ Hd1 H) as [d' [Hd' [Hsound Hmem]]].
    exists d'. split; [assumption|]. split.
    + intros n x Hin. destruct (Hsound n x Hin) as [Hold|[j [c [Hj [Hc Hx]]]]].
      * apply dict_set_In in Hold. destruct Hold as [Eq|Hold]; [|now left].
        inversion Eq; subst. right. exists O, col. simpl.
        rewrite Nat.add_0_r. auto.
      * right. exists (S j), c. simpl. rewrite Nat.add_succ_r.
        split; [assumption|]. split; [assumption|].
        rewrite <- Hx. unfold downsample_data.
        rewrite !dict_get_set_neq by discriminate. reflexivity.
    + intros n Hn. apply Hmem. rewrite dict_mem_set.
      destruct Hn as [[<-|Hin]|Hm].
      * right. now rewrite String.eqb_refl.
      * now left.
      * right. rewrite Hm. apply orb_true_r.
Qed.


Lemma stride_of_flag (mp : option Z) (len : nat) :
  downsampling_applies mp len =
  match stride_of mp len with Some _ => true | None => false end.
Proof.
  unfold stride_of. destruct mp as [m|]; [|reflexivity].
  now destruct (downsampling_applies (Some m) len).
Qed.

Lemma stride_of_Some (mp : option Z) (len : nat) (k : Z) :
  stride_of mp len = Some k ->
  exists m, mp = Some m /\ m <> 0 /\ m < Z.of_nat len /\ k = Z.of_nat len / m.
Proof.
  unfold stride_of, downsampling_applies. destruct mp as [m|]; [|discriminate].
  destruct (Z.eqb_spec m 0); simpl; [discriminate|].
  destruct (Z.ltb_spec m (Z.of_nat len)); [|discriminate].
  intros [= <-]. eauto.
Qed.

Lemma apply_downsampling_inv (time_array : list V) (mp : option Z)
    (r r1 : payload) :
  apply_downsampling time_array mp r = Ok r1 ->
  exists time_out,
    resample (stride_of mp (length time_array)) time_array = Ok time_out /\
    r1 = match stride_of mp (length time_array) with
         | Some k => dict_set "downsample_factor" (PInt k)
                       (dict_set "downsampled" (PBool true)
                         (dict_set "time" (PList time_out) r))
         | None => dict_set "downsampled" (PBool false) r
         end.
Proof.
  unfold apply_downsampling, stride_of, resample.
  destruct mp as [m|].
  - destruct (downsampling_applies (Some m) (length time_array)).
    + unfold rbind.
      destruct (py_slice_step time_array (Z.of_nat (length time_array) / m))
        as [sl|]; [|discriminate].
      intros [= <-]. eauto.
    + intros [= <-]. eauto.
  - intros [= <-]. eauto.
Qed.

(** What a payload of an initialized run holds, field by field. *)
Lemma serialize_tds_results_inv (sys : System) (tds : TDS_t)
    (variables : option (list string)) (mp : option Z) (p : payload) :
  sys_TDS sys = Some tds -> TDS_initialized tds = true ->
  serialize_tds_results sys variables mp = Ok p ->
  let time_array := ts_t (sys_dae sys) in
  let stride := stride_of mp (length time_array) in
  exists names src time_out d,
    select_variables (sys_dae sys) variables = Ok (names, src) /\
    resample stride time_array = Ok time_out /\
    dict_get "initialized" p = Some (PBool true) /\
    dict_get "n_points" p = Some (PInt (Z.of_nat (length time_array))) /\
    dict_get "time" p = Some (PList time_out) /\
    dict_get "downsampled" p =
      Some (PBool (downsampling_applies mp (length time_array))) /\
    dict_get "downsample_factor" p = option_map PInt stride /\
    dict_get "error" p = None /\
    dict_get "variables" p = Some (PVars d) /\
    (forall name data, In (name, data) d ->
       exists j col, nth_error names j = Some name /\
                     variable_data src j = Ok col /\
                     resample stride col = Ok data) /\
    (forall name, In name names -> dict_mem name d = true).
Proof.
  intros Ht Hi H time_array stride.
  unfold serialize_tds_results in H. rewrite Ht, Hi in H. simpl negb in H.
  cbv iota in H. unfold rbind in H.
  destruct (select_variables (sys_dae sys) variables) as [[names src]|] eqn:Esel;
    [|discriminate].
  unfold numpy_to_python in H at 1 2 3.
  fold time_array in H.
  match type of H with
  | match apply_downsampling _ _ ?r with _ => _ end = _ => set (r0 := r) in *
  end.
  destruct (apply_downsampling time_array mp r0) as [r1|] eqn:Eds;
    [|discriminate].
  apply apply_downsampling_inv in Eds. destruct Eds as [time_out [Hres Hr1]].
  fold stride in Hres, Hr1. simpl fst in H. simpl snd in H.
  assert (Hv1 : dict_get "variables" r1 = Some (PVars [])).
  { subst r1. destruct stride; rewrite !dict_get_set_neq by discriminate;
      reflexivity. }
  assert (Hflag : dict_get "downsampled" r1 =
                  Some (PBool (match stride with Some _ => true | None => false end))).
  { subst r1. destruct stride.
    - rewrite dict_get_set_neq by discriminate. apply dict_get_set_eq.
    - apply dict_get_set_eq. }
  assert (Hfac : dict_get "downsample_factor" r1 = option_map PInt stride).
  { subst r1. destruct stride; simpl option_map.
    - apply dict_get_set_eq.
    - reflexivity. }
  assert (Htime : dict_get "time" r1 = Some (PList time_out)).
  { subst r1. destruct stride.
    - rewrite !dict_get_set_neq by discriminate. apply dict_get_set_eq.
    - simpl in Hres. inversion Hres. reflexivity. }
  assert (Hrest : dict_get "initialized" r1 = Some (PBool true) /\
                  dict_get "n_points" r1 =
                    Some (PInt (Z.of_nat (length time_array))) /\
                  dict_get "error" r1 = None).
  { subst r1. destruct stride; rewrite !dict_get_set_neq by discriminate;
      repeat split; reflexivity. }
  destruct Hrest as [Hinit [Hn Herr]].
  pose proof (add_variables_other _ _ _ _ _ H) as Hother.
  destruct (add_variables_vars _ _ _ _ _ _ Hv1 H) as [d [Hd [Hsound Hmem]]].
  exists names, src, time_out, d.
  split; [reflexivity|]. split; [assumption|].
  rewrite !Hother by discriminate.
  split; [assumption|]. split; [assumption|]. split; [assumption|].
  split; [now rewrite stride_of_flag|].
  split; [assumption|]. split; [assumption|]. split; [assumption|]. split.
  - intros name data Hin. destruct (Hsound name data Hin) as [[]|[j [col [Hj [Hc Hx]]]]].
    exists j, col. split; [assumption|]. split; [assumption|].
    rewrite <- Hx. symmetry.
    now apply (downsample_data_resample mp (length time_array)).
  - intros name Hin. apply Hmem. now left.
Qed.


Lemma column_ok (a : ndarray) (names : list string) (rows idx : nat) :
  columns_ok a names rows -> (idx < length names)%nat ->
  exists c, column a idx = Ok c /\ length c = rows.
Proof.
  destruct a as [|cols]; simpl; [intros []|].
  intros [Hlen Hall] Hidx.
  destruct (nth_error cols idx) as [c|] eqn:E.
  - exists c. split; [reflexivity|].
    rewrite Forall_forall in Hall. apply Hall. eapply nth_error_In; eassumption.
  - apply nth_error_None in E. lia.
Qed.

Lemma filter_requested_ok (dae : DAE_t) (vs : list string) :
  shape_ok dae ->
  exists names cols,
    filter_requested dae vs = Ok (names, cols) /\
    length cols = length names /\
    Forall (fun c => length c = length (ts_t dae)) cols.
Proof.
  intros [Hx Hy]. induction vs as [|v rest IH]; simpl.
  - exists [], []. auto.
  - destruct IH as [names [cols [E [Hl Hall]]]].
    destruct (str_in v (x_name dae)) eqn:Ex.
    + destruct (str_index_in _ _ Ex) as [i [-> Hi]].
      destruct (column_ok _ _ _ _ Hx Hi) as [c [-> Hc]].
      rewrite E. simpl. exists (v :: names), (c :: cols).
      split; [reflexivity|]. split; [simpl; now rewrite Hl|now constructor].
    + destruct (str_in v (y_name dae)) eqn:Ey.
      * destruct (str_index_in _ _ Ey) as [i [-> Hi]].
        destruct (column_ok _ _ _ _ Hy Hi) as [c [-> Hc]].
        rewrite E. simpl. exists (v :: names), (c :: cols).
        split; [reflexivity|]. split; [simpl; now rewrite Hl|now constructor].
      * exists names, cols. auto.
Qed.

(** Under the shape contract every selected variable has a column, and the
    column has one sample per time point. *)
Lemma select_variables_ok (dae : DAE_t) (variables : option (list string)) :
  shape_ok dae ->
  exists names src,
    select_variables dae variables = Ok (names, src) /\
    (forall j, (j < length names)%nat -> exists col, variable_data src j = Ok col) /\
    (forall j col, variable_data src j = Ok col ->
                   length col = length (ts_t dae)).
Proof.
  intros Hs. destruct variables as [vs|]; simpl.
  - destruct (filter_requested_ok dae vs Hs) as [names [cols [-> [Hl Hall]]]].
    simpl. exists names, (FromList cols). split; [reflexivity|]. split.
    + intros j Hj. simpl. destruct (nth_error cols j) eqn:E; [eauto|].
      apply nth_error_None in E. lia.
    + intros j col. simpl. destruct (nth_error cols j) eqn:E; [|discriminate].
      intros [= <-]. rewrite Forall_forall in Hall. apply Hall.
      eapply nth_error_In; eassumption.
  - destruct Hs as [Hx _]. exists (x_name dae), (FromArray (ts_x dae)).
    split; [reflexivity|].
    destruct (ts_x dae) as [|cols]; simpl in *; [contradiction|].
    destruct Hx as [Hl Hall]. split.
    + intros j Hj. destruct (nth_error cols j) eqn:E; [eauto|].
      apply nth_error_None in E. lia.
    + intros j col. destruct (nth_error cols j) eqn:E; [|discriminate].
      intros [= <-]. rewrite Forall_forall in Hall. apply Hall.
      eapply nth_error_In; eassumption.
Qed.

Lemma add_variables_ok (src : var_source) (names : list string) :
  forall i r d,
  (forall j, (j < length names)%nat -> exists col, variable_data src (i + j) = Ok col) ->
  (forall col, exists data, downsample_data r col = Ok data) ->
  dict_get "variables" r = Some (PVars d) ->
  exists r', add_variables i names src r = Ok r'.
Proof.
  induction names as [|name rest IH]; simpl; intros i r d Hcol Hds Hd.
  - eauto.
  - destruct (Hcol O ltac:(lia)) as [col Ec]. rewrite Nat.add_0_r in Ec.
    rewrite Ec. simpl. destruct (Hds col) as [data Ed]. rewrite Ed. simpl.
    unfold set_variable. rewrite Hd. simpl.
    eapply IH.
    + intros j Hj. destruct (Hcol (S j) ltac:(lia)) as [c Hc].
      exists c. now rewrite Nat.add_succ_l, <- Nat.add_succ_r.
    + intros c. destruct (Hds c) as [x Hx]. exists x. rewrite <- Hx.
      unfold downsample_data. now rewrite !dict_get_set_neq by discriminate.
    + apply dict_get_set_eq.
Qed.

Lemma resample_total (mp : option Z) (len : nat) (l : list V) :
  (forall m, mp = Some m -> 0 <= m) ->
  exists out, resample (stride_of mp len) l = Ok out.
Proof.
  intros Hm. unfold resample. destruct (stride_of mp len) as [k|] eqn:E; [|eauto].
  apply stride_of_Some in E. destruct E as [m [-> [Hne [Hlt ->]]]].
  specialize (Hm m eq_refl).
  destruct (py_slice_step_pos_length l (Z.of_nat len / m)) as [sl [-> _]]; [|eauto].
  pose proof (stride_pos (Z.of_nat len) m). lia.
Qed.

(** The serializer returns a payload for every initialized run that meets
    the shape contract, whatever names are requested and whatever
    non-negative bound is given. *)
Lemma serialize_tds_results_returns (sys : System) (tds : TDS_t)
    (variables : option (list string)) (mp : option Z) :
  sys_TDS sys = Some tds -> TDS_initialized tds = true ->
  shape_ok (sys_dae sys) ->
  (forall m, mp = Some m -> 0 <= m) ->
  exists p, serialize_tds_results sys variables mp = Ok p.
Proof.
  intros Ht Hi Hs Hm. unfold serialize_tds_results. rewrite Ht, Hi. simpl negb.
  cbv iota.
  destruct (select_variables_ok (sys_dae sys) variables Hs)
    as [names [src [-> [Hcols _]]]].
  simpl rbind. unfold numpy_to_python at 1 2 3.
  match goal with
  | |- context [apply_downsampling ?t ?m ?r] =>
      destruct (apply_downsampling t m r) as [r1|] eqn:Eds
  end.
  - simpl. pose proof Eds as Eds'.
    apply apply_downsampling_inv in Eds'. destruct Eds' as [time_out [_ Hr1]].
    set (stride := stride_of mp (length (ts_t (sys_dae sys)))) in *.
    eapply (add_variables_ok src names 0 r1 []).
    + intros j Hj. now apply Hcols.
    + intros col.
      rewrite (downsample_data_resample mp (length (ts_t (sys_dae sys)))).
      * now apply resample_total.
      * fold stride. subst r1. destruct stride.
        -- rewrite dict_get_set_neq by discriminate. apply dict_get_set_eq.
        -- apply dict_get_set_eq.
      * fold stride. subst r1. destruct stride; simpl option_map.
        -- apply dict_get_set_eq.
        -- reflexivity.
    + subst r1. destruct stride; rewrite !dict_get_set_neq by discriminate;
        reflexivity.
  - exfalso. unfold apply_downsampling in Eds.
    destruct mp as [m|]; [|discriminate].
    specialize (Hm m eq_refl).
    destruct (downsampling_applies (Some m) _) eqn:Ea; [|discriminate].
    unfold downsampling_applies in Ea. apply andb_prop in Ea.
    destruct Ea as [Ea1 Ea2]. apply Z.ltb_lt in Ea2.
    apply negb_true_iff, Z.eqb_neq in Ea1.
    destruct (py_slice_step_pos_length (ts_t (sys_dae sys))
                (Z.of_nat (length (ts_t (sys_dae sys))) / m)) as [sl [E _]].
    + pose proof (stride_pos (Z.of_nat (length (ts_t (sys_dae sys)))) m). lia.
    + rewrite E in Eds. discriminate.
Qed.


(** The time axis a payload carries is the input resampled at the stride. *)
Lemma payload_time_resample (sys : System) (tds : TDS_t)
    (variables : option (list string)) (mp : option Z) (p : payload) :
  sys_TDS sys = Some tds -> TDS_initialized tds = true ->
  serialize_tds_results sys variables mp = Ok p ->
  exists t_out,
    payload_time p = Some t_out /\
    resample (stride_of mp (length (ts_t (sys_dae sys)))) (ts_t (sys_dae sys))
      = Ok t_out.
Proof.
  intros Ht Hi H.
  destruct (serialize_tds_results_inv _ _ _ _ _ Ht Hi H)
    as [names [src [t_out [d [_ [Hres [_ [_ [Htime _]]]]]]]]].
  exists t_out. unfold payload_time. rewrite Htime. auto.
Qed.

(** The payload reports the length of the full time array. *)
Lemma n_points_full_length (sys : System) (tds : TDS_t)
    (variables : option (list string)) (mp : option Z) (p : payload) :
  sys_TDS sys = Some tds -> TDS_initialized tds = true ->
  serialize_tds_results sys variables mp = Ok p ->
  dict_get "n_points" p = Some (PInt (Z.of_nat (length (ts_t (sys_dae sys))))).
Proof.
  intros Ht Hi H.
  destruct (serialize_tds_results_inv _ _ _ _ _ Ht Hi H)
    as [names [src [t_out [d [_ [_ [_ [Hn _]]]]]]]].
  exact Hn.
Qed.

Lemma stride_of_small (m : Z) (len : nat) :
  Z.of_nat len <= m -> stride_of (Some m) len = None.
Proof.
  intros H. unfold stride_of, downsampling_applies.
  destruct (Z.ltb_spec m (Z.of_nat len)); [lia|]. now rewrite andb_false_r.
Qed.

Lemma stride_of_large (m : Z) (len : nat) :
  0 < m -> m < Z.of_nat len -> stride_of (Some m) len = Some (Z.of_nat len / m).
Proof.
  intros Hm H. unfold stride_of, downsampling_applies.
  destruct (Z.ltb_spec m (Z.of_nat len)); [|lia].
  destruct (Z.eqb_spec m 0); [lia|reflexivity].
Qed.

Lemma stride_of_zero (len : nat) : stride_of (Some 0) len = None.
Proof. reflexivity. Qed.

(** Resampling a sequence under a non-negative bound, then resampling the
    outcome under the same bound, changes nothing the second time. *)
Lemma resample_idempotent (m : Z) (l out : list V) :
  0 <= m ->
  resample (stride_of (Some m) (length l)) l = Ok out ->
  resample (stride_of (Some m) (length out)) out = Ok out.
Proof.
  intros Hm0 H.
  destruct (Z.eq_dec m 0) as [->|Hne]; [now rewrite stride_of_zero|].
  assert (Hm : 0 < m) by lia.
  destruct (Z_le_gt_dec (Z.of_nat (length l)) m) as [Hle|Hgt].
  - rewrite stride_of_small in H by assumption. simpl in H.
    inversion H; subst. now rewrite stride_of_small.
  - rewrite stride_of_large in H by lia. simpl in H.
    pose proof (stride_pos (Z.of_nat (length l)) m Hm ltac:(lia)) as Hs.
    destruct (py_slice_step_pos_length l (Z.of_nat (length l) / m) ltac:(lia))
      as [sl [E Hlen]].
    rewrite E in H. inversion H; subst sl. clear H.
    pose proof (ceil_div_stride_lt (Z.of_nat (length l)) m Hm ltac:(lia)) as Hlt.
    rewrite <- Hlen in Hlt.
    destruct (Z_le_gt_dec (Z.of_nat (length out)) m) as [Hle'|Hgt'].
    + now rewrite stride_of_small.
    + rewrite stride_of_large by lia. simpl.
      replace (Z.of_nat (length out) / m) with 1; [apply py_slice_step_one|].
      apply Z.div_unique with (r := Z.of_nat (length out) - m); lia.
Qed.

(** C5. For a bound [m >= 0], the time axis returned by
    [serialize_tds_results] equals the input when the input has at most [m]
    points; has [ceil(L / stride)] points with [stride = floor(L / m)] when
    it has more and [m] is positive; and is returned unchanged when the
    serializer is run again, with the same bound, on a run whose time axis
    is that output. *)
Theorem downsampler_idempotent (sys : System) (tds : TDS_t)
    (variables : option (list string)) (m : Z) (p : payload)
    (t_out : list V) :
  sys_TDS sys = Some tds -> TDS_initialized tds = true ->
  0 <= m ->
  serialize_tds_results sys variables (Some m) = Ok p ->
  payload_time p = Some t_out ->
  let L := Z.of_nat (length (ts_t (sys_dae sys))) in
  (L <= m -> t_out = ts_t (sys_dae sys)) /\
  (0 < m -> m < L -> Z.of_nat (length t_out) = ceil_div L (L / m)) /\
  (forall (sys' : System) (tds' : TDS_t) (variables' : option (list string))
          (p' : payload),
     sys_TDS sys' = Some tds' -> TDS_initialized tds' = true ->
     ts_t (sys_dae sys') = t_out ->
     serialize_tds_results sys' variables' (Some m) = Ok p' ->
     payload_time p' = Some t_out).
Proof.
  intros Ht Hi Hm H Hp L.
  destruct (payload_time_resample _ _ _ _ _ Ht Hi H) as [t0 [Hp0 Hres]].
  rewrite Hp in Hp0. inversion Hp0; subst t0. clear Hp0.
  split; [|split].
  - intros HL. rewrite stride_of_small in Hres by assumption.
    simpl in Hres. now inversion Hres.
  - intros Hpos HL. rewrite stride_of_large in Hres by assumption.
    simpl in Hres.
    pose proof (stride_pos L m Hpos HL) as Hs.
    destruct (py_slice_step_pos_length (ts_t (sys_dae sys)) (L / m) ltac:(lia))
      as [sl [E Hlen]].
    fold L in Hres. rewrite E in Hres. now inversion Hres; subst.
  - intros sys' tds' variables' p' Ht' Hi' Hts H'.
    destruct (payload_time_resample _ _ _ _ _ Ht' Hi' H') as [t1 [Hp1 Hres1]].
    rewrite Hts in Hres1.
    rewrite (resample_idempotent m _ _ Hm Hres) in Hres1.
    now inversion Hres1; subst.
Qed.

(** C7. When the result is downsampled under a positive bound and the
    engine arrays meet the shape contract, the payload reports one stride
    [k = floor(L / m)]; entry [i] of the returned time axis is sample
    [i * k] of the full axis, entry [i] of every returned variable is sample
    [i * k] of that variable's full column, and every returned variable has
    as many entries as the returned time axis. *)
Theorem shared_stride_alignment (sys : System) (tds : TDS_t)
    (variables : option (list string)) (m : Z) (p : payload) :
  sys_TDS sys = Some tds -> TDS_initialized tds = true ->
  shape_ok (sys_dae sys) ->
  0 < m -> m < Z.of_nat (length (ts_t (sys_dae sys))) ->
  serialize_tds_results sys variables (Some m) = Ok p ->
  let k := Z.of_nat (length (ts_t (sys_dae sys))) / m in
  exists names src t_out d,
    select_variables (sys_dae sys) variables = Ok (names, src) /\
    dict_get "downsampled" p = Some (PBool true) /\
    dict_get "downsample_factor" p = Some (PInt k) /\
    payload_time p = Some t_out /\
    payload_variables p = Some d /\
    (forall i, nth_error t_out i =
               nth_error (ts_t (sys_dae sys)) (i * Z.to_nat k)) /\
    (forall name data, In (name, data) d ->
       exists j col,
         nth_error names j = Some name /\
         variable_data src j = Ok col /\
         length data = length t_out /\
         (forall i, nth_error data i = nth_error col (i * Z.to_nat k))).
Proof.
  intros Ht Hi Hshape Hm HL H k.
  destruct (serialize_tds_results_inv _ _ _ _ _ Ht Hi H)
    as [names [src [t_out [d [Hsel [Hres [_ [_ [Htime [Hflag [Hfac [_ [Hd [Hsound _]]]]]]]]]]]]]].
  rewrite stride_of_large in * by assumption. fold k in Hres, Hfac, Hsound.
  pose proof (stride_pos _ m Hm HL) as Hk. fold k in Hk.
  exists names, src, t_out, d.
  split; [assumption|]. split.
  { rewrite Hflag. unfold downsampling_applies.
    destruct (Z.eqb_spec m 0); [lia|].
    destruct (Z.ltb_spec m (Z.of_nat (length (ts_t (sys_dae sys))))); [reflexivity|lia]. }
  split; [assumption|].
  split; [unfold payload_time; now rewrite Htime|].
  split; [unfold payload_variables; now rewrite Hd|].
  simpl in Hres.
  split; [now apply py_slice_step_pos_nth; [lia|]|].
  intros name data Hin.
  destruct (Hsound name data Hin) as [j [col [Hj [Hc Hx]]]].
  exists j, col. split; [assumption|]. split; [assumption|]. simpl in Hx.
  split; [|now apply py_slice_step_pos_nth; [lia|]].
  destruct (select_variables_ok (sys_dae sys) variables Hshape)
    as [names' [src' [Hsel' [_ Hlen]]]].
  rewrite Hsel in Hsel'. inversion Hsel'; subst names' src'.
  specialize (Hlen j col Hc).
  destruct (py_slice_step_pos_length col k ltac:(lia)) as [s1 [E1 L1]].
  destruct (py_slice_step_pos_length (ts_t (sys_dae sys)) k ltac:(lia))
    as [s2 [E2 L2]].
  rewrite E1 in Hx. rewrite E2 in Hres. inversion Hx; inversion Hres; subst.
  rewrite Hlen in L1. lia.
Qed.


(** ** The session registry *)

Lemma expired_ids_run (tmo : Z) (items : dict Session) (w : World) :
  expired_ids tmo items w =
  (Ok (stale_keys (clock w) (ticks w) tmo items),
   mkWorld (manager w) (clock w) (ticks w + length items)).
Proof.
  revert w. induction items as [|[sid s] rest IH]; intros w.
  - simpl. unfold ret. destruct w; simpl. now rewrite Nat.add_0_r.
  - simpl. unfold bind, is_expired, bind, time_time, ret. simpl.
    rewrite IH. simpl. rewrite Nat.add_succ_r.
    now destruct (tmo <? clock w (ticks w) - last_accessed s).
Qed.

Lemma dict_del_app {A : Type} (k : string) (v : A) (pre post : dict A) :
  ~ In k (dict_keys pre) ->
  dict_del k (pre ++ (k, v) :: post) = Some (pre ++ post)%list.
Proof.
  induction pre as [|[k' v'] pre IH]; simpl; intros Hnot.
  - now rewrite String.eqb_refl.
  - destruct (String.eqb_spec k k') as [->|Hne].
    + exfalso. apply Hnot. now left.
    + rewrite IH; [reflexivity|]. intros H. apply Hnot. now right.
Qed.

Lemma del_sessions_sweep (clk : nat -> Z) (tmo : Z) (d : dict Session) :
  forall (n : nat) (pre : dict Session) (w : World),
  registry w = (pre ++ d)%list -> NoDup (dict_keys (pre ++ d)) ->
  del_sessions (stale_keys clk n tmo d) w =
  (Ok tt, world_with w (pre ++ sweep clk n tmo d) (ticks w)).
Proof.
  induction d as [|[sid s] rest IH]; intros n pre w Hreg Hnd.
  - simpl. unfold ret, world_with. rewrite <- Hreg.
    destruct w as [[d0 cap t0] c k]; reflexivity.
  - simpl. destruct (tmo <? clk n - last_accessed s).
    + simpl. unfold bind at 1. unfold del_session, bind, get_sessions.
      unfold registry in Hreg. rewrite Hreg.
      rewrite dict_del_app.
      * unfold put_sessions. simpl.
        rewrite (IH (S n) pre).
        -- reflexivity.
        -- reflexivity.
        -- unfold dict_keys in *. rewrite map_app in *. simpl in Hnd.
           now apply NoDup_remove_1 in Hnd.
      * unfold dict_keys in *. rewrite map_app in Hnd. simpl in Hnd.
        apply NoDup_remove_2 in Hnd. intros Hin. apply Hnd.
        apply in_or_app. now left.
    + rewrite (IH (S n) (pre ++ [(sid, s)])%list w).
      * now rewrite <- app_assoc.
      * now rewrite <- app_assoc.
      * now rewrite <- app_assoc.
Qed.

Lemma _cleanup_expired_run (w : World) :
  registry_ok w ->
  _cleanup_expired w =
  (Ok tt,
   world_with w (sweep (clock w) (ticks w) (timeout (manager w)) (registry w))
              (ticks w + length (registry w))).
Proof.
  intros Hok. unfold _cleanup_expired, bind, get_sessions, get_timeout.
  rewrite expired_ids_run. simpl.
  rewrite (del_sessions_sweep _ _ (registry w) _ []); [reflexivity|reflexivity|].
  exact Hok.
Qed.

Lemma sweep_incl (clk : nat -> Z) (tmo : Z) (d : dict Session) :
  forall n kv, In kv (sweep clk n tmo d) -> In kv d.
Proof.
  induction d as [|[sid s] rest IH]; simpl; intros n kv; [tauto|].
  destruct (tmo <? clk n - last_accessed s).
  - intros H. right. now apply (IH (S n)).
  - intros [E|H]; [now left|right; now apply (IH (S n))].
Qed.

Lemma sweep_length (clk : nat -> Z) (tmo : Z) (d : dict Session) :
  forall n, (length (sweep clk n tmo d) <= length d)%nat.
Proof.
  induction d as [|[sid s] rest IH]; simpl; intros n; [lia|].
  specialize (IH (S n)).
  destruct (tmo <? clk n - last_accessed s); simpl; lia.
Qed.

Lemma sweep_NoDup (clk : nat -> Z) (tmo : Z) (d : dict Session) :
  forall n, NoDup (dict_keys d) -> NoDup (dict_keys (sweep clk n tmo d)).
Proof.
  induction d as [|[sid s] rest IH]; simpl; intros n Hnd; [constructor|].
  inversion Hnd as [|? ? Hnot Hnd']; subst.
  destruct (tmo <? clk n - last_accessed s); [now apply IH|].
  simpl. constructor; [|now apply IH].
  intros Hin. apply Hnot. unfold dict_keys in *.
  apply in_map_iff in Hin. destruct Hin as [kv [E Hin]].
  apply in_map_iff. exists kv. split; [assumption|].
  now apply (sweep_incl clk tmo rest (S n)).
Qed.

(** Whoever was idle for longer than the timeout at some instant not later
    than the readings of the sweep is gone after it. *)
Lemma sweep_removes (clk : nat -> Z) (tmo t0 : Z) (d : dict Session) :
  forall n sid s,
  (forall k, (n <= k)%nat -> t0 <= clk k) ->
  In (sid, s) (sweep clk n tmo d) -> t0 - last_accessed s <= tmo.
Proof.
  induction d as [|[sid' s'] rest IH]; simpl; intros n sid s Hclk; [tauto|].
  assert (Hclk' : forall k, (S n <= k)%nat -> t0 <= clk k)
    by (intros k Hk; apply Hclk; lia).
  destruct (Z.ltb_spec tmo (clk n - last_accessed s')) as [Hlt|Hge].
  - now apply (IH (S n)).
  - intros [E|H]; [|now apply (IH (S n) sid)].
    inversion E; subst. specialize (Hclk n (le_n n)). lia.
Qed.


Lemma min_from_split {A : Type} (f : A -> Z) (l : list A) :
  forall best,
  exists l1 l2,
    best :: l = l1 ++ min_from f best l :: l2 /\
    (forall x, In x l1 -> f (min_from f best l) < f x) /\
    (forall x, In x l2 -> f (min_from f best l) <= f x).
Proof.
  induction l as [|a rest IH]; intros best; simpl.
  - exists [], []. split; [reflexivity|]. split; intros x [].
  - destruct (Z.ltb_spec (f a) (f best)) as [Hlt|Hge].
    + destruct (IH a) as [l1 [l2 [E [H1 H2]]]].
      exists (best :: l1), l2. split; [simpl; now rewrite <- E|].
      split; [|assumption].
      intros x [<-|Hx]; [|now apply H1].
      assert (Ha : In a (l1 ++ min_from f a rest :: l2))
        by (rewrite <- E; now left).
      apply in_app_or in Ha. destruct Ha as [Ha|[Ha|Ha]].
      * specialize (H1 a Ha). lia.
      * rewrite Ha in *. lia.
      * specialize (H2 a Ha). lia.
    + destruct (IH best) as [l1 [l2 [E [H1 H2]]]].
      destruct l1 as [|b l1']; simpl in E; injection E as Eb El.
      * exists [], (a :: rest). split; [simpl; now rewrite <- Eb|].
        split; [intros x []|].
        intros x [<-|Hx]; [rewrite <- Eb; lia|].
        apply H2. rewrite <- El. exact Hx.
      * subst b. exists (best :: a :: l1'), l2.
        split; [simpl; now rewrite <- El|]. split; [|assumption].
        intros x [<-|[<-|Hx]].
        -- apply H1. now left.
        -- assert (f (min_from f best rest) < f best) by (apply H1; now left).
           lia.
        -- apply H1. now right.
Qed.

Lemma get_session_absent (sid : string) (w : World) :
  dict_get sid (registry w) = None -> get_session sid w = (Ok None, w).
Proof.
  intros H. unfold get_session, bind, get_sessions. unfold registry in H.
  now rewrite H.
Qed.

Lemma get_session_stale (sid : string) (s : Session) (w : World) :
  dict_get sid (registry w) = Some s ->
  timeout (manager w) < clock w (ticks w) - last_accessed s ->
  exists d', dict_del sid (registry w) = Some d' /\
             get_session sid w = (Ok None, world_with w d' (S (ticks w))).
Proof.
  intros Hget Hexp. destruct (dict_del_present _ _ _ Hget) as [d' Hdel].
  exists d'. split; [assumption|].
  unfold get_session, bind, get_sessions, get_timeout, is_expired, bind,
    time_time, ret. unfold registry in *. rewrite Hget. simpl.
  destruct (Z.ltb_spec (timeout (manager w))
              (clock w (ticks w) - last_accessed s)); [|lia].
  unfold del_session, bind, get_sessions. simpl. rewrite Hdel. reflexivity.
Qed.

Lemma get_session_live (sid : string) (s : Session) (w : World) :
  dict_get sid (registry w) = Some s ->
  clock w (ticks w) - last_accessed s <= timeout (manager w) ->
  get_session sid w =
  (Ok (Some (touched s (clock w (S (ticks w))))),
   world_with w (dict_set sid (touched s (clock w (S (ticks w)))) (registry w))
              (S (S (ticks w)))).
Proof.
  intros Hget Hlive.
  unfold get_session, bind, get_sessions, get_timeout, is_expired, bind,
    time_time, ret. unfold registry in *. rewrite Hget. simpl.
  destruct (Z.ltb_spec (timeout (manager w))
              (clock w (ticks w) - last_accessed s)); [lia|].
  reflexivity.
Qed.

Lemma close_session_run (sid : string) (w : World) :
  close_session sid w =
  match dict_del sid (registry w) with
  | Some d' => (Ok true, world_with w d' (ticks w))
  | None => (Ok false, w)
  end.
Proof.
  unfold close_session, bind, get_sessions, dict_mem. fold (registry w).
  destruct (dict_get sid (registry w)) as [s|] eqn:E.
  - destruct (dict_del_present _ _ _ E) as [d' Hd]. rewrite Hd.
    unfold del_session, bind, get_sessions. fold (registry w). now rewrite Hd.
  - assert (dict_del sid (registry w) = None) as ->; [|reflexivity].
    clear -E. induction (registry w) as [|[k v] rest IH]; simpl in *;
      [reflexivity|].
    destruct (String.eqb sid k); [discriminate|]. now rewrite IH.
Qed.

Lemma list_sessions_run (w : World) :
  registry_ok w ->
  snd (list_sessions w) =
  world_with w (sweep (clock w) (ticks w) (timeout (manager w)) (registry w))
             (ticks w + length (registry w)).
Proof.
  intros Hok. unfold list_sessions, bind. rewrite _cleanup_expired_run by assumption.
  reflexivity.
Qed.

(** [create_session], step by step: the sweep, the eviction when the swept
    registry has reached the capacity, the two clock readings of the new
    session, the insertion. *)
Lemma create_session_run (sys : System) (path uuid4 : string) (w : World) :
  registry_ok w ->
  let d1 := sweep (clock w) (ticks w) (timeout (manager w)) (registry w) in
  let n1 := (ticks w + length (registry w))%nat in
  let s := mkSession uuid4 sys path (clock w n1) (clock w (S n1)) in
  create_session sys path uuid4 w =
  if max_sessions (manager w) <=? Z.of_nat (length d1) then
    match oldest_id d1 with
    | Ok oldest =>
        match dict_del oldest d1 with
        | Some d2 => (Ok uuid4, world_with w (dict_set uuid4 s d2) (S (S n1)))
        | None => (Raise KeyError, world_with w d1 n1)
        end
    | Raise e => (Raise e, world_with w d1 n1)
    end
  else (Ok uuid4, world_with w (dict_set uuid4 s d1) (S (S n1))).
Proof.
  intros Hok d1 n1 s. unfold create_session. unfold bind at 1.
  rewrite _cleanup_expired_run by assumption. fold d1 n1.
  unfold bind at 1. unfold get_sessions at 1. simpl.
  unfold bind at 1. unfold get_max_sessions. simpl.
  destruct (max_sessions (manager w) <=? Z.of_nat (length d1)).
  - destruct (oldest_id d1) as [oldest|e].
    + unfold bind at 1. unfold del_session, bind at 1, get_sessions. simpl.
      destruct (dict_del oldest d1) as [d2|]; reflexivity.
    + reflexivity.
  - reflexivity.
Qed.


Lemma world_with_registry (w : World) (d : dict Session) (n : nat) :
  registry (world_with w d n) = d.
Proof. reflexivity. Qed.

(** C6. [get_session sid]: an absent id yields [None] and leaves the world
    as it was; an entry whose idle time, at the reading taken by
    [is_expired], exceeds the timeout is deleted and [None] is returned; any
    other entry gets [last_accessed] set to the next clock reading and is
    returned as it now stands in the registry. No other entry changes. *)
Theorem get_session_cases (sid : string) (w : World) :
  registry_ok w ->
  match dict_get sid (registry w) with
  | None => get_session sid w = (Ok None, w)
  | Some s =>
      if timeout (manager w) <? clock w (ticks w) - last_accessed s then
        exists w',
          get_session sid w = (Ok None, w') /\
          dict_get sid (registry w') = None /\
          (forall k, k <> sid ->
                     dict_get k (registry w') = dict_get k (registry w))
      else
        exists s' w',
          get_session sid w = (Ok (Some s'), w') /\
          s' = touched s (clock w (S (ticks w))) /\
          last_accessed s' = clock w (S (ticks w)) /\
          dict_get sid (registry w') = Some s' /\
          (forall k, k <> sid ->
                     dict_get k (registry w') = dict_get k (registry w))
  end.
Proof.
  intros Hok. destruct (dict_get sid (registry w)) as [s|] eqn:Hget.
  - destruct (Z.ltb_spec (timeout (manager w))
                (clock w (ticks w) - last_accessed s)) as [Hexp|Hlive].
    + destruct (get_session_stale _ _ _ Hget Hexp) as [d' [Hdel Hrun]].
      eexists. split; [exact Hrun|]. rewrite world_with_registry.
      split; [now apply (dict_del_NoDup _ _ _ Hdel)|].
      intros k Hk. now apply (dict_del_get_neq sid).
    + exists (touched s (clock w (S (ticks w)))).
      eexists. split; [apply get_session_live; assumption|].
      split; [reflexivity|]. split; [reflexivity|].
      rewrite world_with_registry. split; [apply dict_get_set_eq|].
      intros k Hk. now apply dict_get_set_neq.
  - now apply get_session_absent.
Qed.

Lemma oldest_id_split (d : dict Session) :
  d <> [] ->
  exists l1 victim l2,
    d = l1 ++ victim :: l2 /\
    oldest_id d = Ok (fst victim) /\
    (forall kv, In kv l1 -> last_accessed (snd victim) < last_accessed (snd kv)) /\
    (forall kv, In kv l2 -> last_accessed (snd victim) <= last_accessed (snd kv)).
Proof.
  destruct d as [|kv0 rest]; [congruence|]. intros _.
  destruct (min_from_split (fun kv : string * Session => last_accessed (snd kv))
              rest kv0) as [l1 [l2 [E [H1 H2]]]].
  exists l1, (min_from (fun kv : string * Session => last_accessed (snd kv)) kv0 rest), l2.
  split; [exact E|]. split; [reflexivity|]. split; assumption.
Qed.

(** C4. When the registry left by the sweep holds a session and has
    reached the capacity, [create_session] returns, and the registry it
    leaves is the swept one minus exactly one entry, with the new session
    then stored under its id. The entry removed has the least
    [last_accessed] of the swept registry; among entries with that least
    value it is the first in insertion order. *)
Theorem create_session_evicts_oldest (sys : System) (path uuid4 : string)
    (w : World) :
  registry_ok w ->
  let swept := registry (snd (_cleanup_expired w)) in
  swept <> [] ->
  max_sessions (manager w) <= Z.of_nat (length swept) ->
  exists l1 victim l2 w' s,
    swept = l1 ++ victim :: l2 /\
    (forall kv, In kv l1 -> last_accessed (snd victim) < last_accessed (snd kv)) /\
    (forall kv, In kv l2 -> last_accessed (snd victim) <= last_accessed (snd kv)) /\
    create_session sys path uuid4 w = (Ok uuid4, w') /\
    session_id s = uuid4 /\ system s = sys /\ case_path s = path /\
    registry w' = dict_set uuid4 s (l1 ++ l2) /\
    length (l1 ++ l2) = (length swept - 1)%nat.
Proof.
  intros Hok swept Hne Hfull.
  assert (Hswept : swept =
            sweep (clock w) (ticks w) (timeout (manager w)) (registry w)).
  { unfold swept. now rewrite _cleanup_expired_run. }
  destruct (oldest_id_split swept Hne) as [l1 [victim [l2 [E [Hold [H1 H2]]]]]].
  assert (Hnd : NoDup (dict_keys swept)).
  { rewrite Hswept. now apply sweep_NoDup. }
  assert (Hdel : dict_del (fst victim) swept = Some (l1 ++ l2)).
  { rewrite E. destruct victim as [vk vs]. simpl fst. apply dict_del_app.
    rewrite E in Hnd. unfold dict_keys in *. rewrite map_app in Hnd.
    simpl in Hnd. apply NoDup_remove_2 in Hnd. intros Hin. apply Hnd.
    apply in_or_app. now left. }
  pose proof (create_session_run sys path uuid4 w Hok) as Hrun.
  cbv zeta in Hrun. rewrite <- Hswept in Hrun.
  destruct (Z.leb_spec (max_sessions (manager w)) (Z.of_nat (length swept)));
    [|lia].
  rewrite Hold, Hdel in Hrun.
  assert (Hlen : length (l1 ++ l2) = (length swept - 1)%nat).
  { apply dict_del_length in Hdel. lia. }
  exists l1, victim, l2. eexists.
  exists (mkSession uuid4 sys path
            (clock w (ticks w + length (registry w)))
            (clock w (S (ticks w + length (registry w))))).
  split; [exact E|]. split; [exact H1|]. split; [exact H2|].
  split; [exact Hrun|].
  split; [reflexivity|]. split; [reflexivity|]. split; [reflexivity|].
  split; [reflexivity|exact Hlen].
Qed.


Lemma dict_set_length_le {A : Type} (k : string) (v : A) (d : dict A) :
  (length (dict_set k v d) <= S (length d))%nat.
Proof. rewrite dict_set_length. destruct (dict_mem k d); lia. Qed.

Lemma dict_set_nonempty {A : Type} (k : string) (v : A) (d : dict A) :
  dict_set k v d <> [].
Proof.
  destruct d as [|[k' v'] rest]; simpl; [discriminate|].
  destruct (String.eqb k k'); discriminate.
Qed.

Lemma oldest_id_nil : oldest_id [] = Raise ValueError.
Proof. reflexivity. Qed.

(** A successful [create_session] leaves a registry within capacity. *)
Lemma create_session_ok_bound (sys : System) (path uuid4 sid : string)
    (w w' : World) :
  registry_inv w ->
  create_session sys path uuid4 w = (Ok sid, w') ->
  Z.of_nat (length (registry w')) <= max_sessions (manager w).
Proof.
  intros [Hok Hcap] H. rewrite create_session_run in H by assumption.
  cbv zeta in H.
  set (d1 := sweep (clock w) (ticks w) (timeout (manager w)) (registry w)) in *.
  pose proof (sweep_length (clock w) (timeout (manager w)) (registry w) (ticks w))
    as Hlen. fold d1 in Hlen.
  destruct (Z.leb_spec (max_sessions (manager w)) (Z.of_nat (length d1)))
    as [Hfull|Hroom].
  - destruct (oldest_id d1) as [oldest|e] eqn:Eo; [|discriminate].
    destruct (dict_del oldest d1) as [d2|] eqn:Ed; [|discriminate].
    inversion H; subst. rewrite world_with_registry.
    match goal with
    | |- context [dict_set ?k ?v ?d] =>
        pose proof (dict_set_length_le k v d) as Hs
    end.
    apply dict_del_length in Ed.
    destruct Hcap as [Hnil|Hcap].
    + unfold d1 in Eo. rewrite Hnil in Eo. simpl in Eo. discriminate.
    + lia.
  - inversion H; subst. rewrite world_with_registry.
    match goal with
    | |- context [dict_set ?k ?v ?d] =>
        pose proof (dict_set_length_le k v d) as Hs
    end.
    lia.
Qed.

Lemma world_with_inv (w : World) (d : dict Session) (n : nat) :
  NoDup (dict_keys d) ->
  d = [] \/ Z.of_nat (length d) <= max_sessions (manager w) ->
  registry_inv (world_with w d n) /\
  max_sessions (manager (world_with w d n)) = max_sessions (manager w).
Proof. intros Hnd Hcap. repeat split; assumption. Qed.

Lemma sweep_inv (w : World) (n : nat) :
  registry_inv w ->
  let d1 := sweep (clock w) (ticks w) (timeout (manager w)) (registry w) in
  NoDup (dict_keys d1) /\
  (d1 = [] \/ Z.of_nat (length d1) <= max_sessions (manager w)).
Proof.
  intros [Hok Hcap] d1. split; [now apply sweep_NoDup|].
  destruct Hcap as [Hnil|Hcap].
  - left. unfold d1. now rewrite Hnil.
  - right. pose proof (sweep_length (clock w) (timeout (manager w))
                         (registry w) (ticks w)). fold d1 in H. lia.
Qed.

(** Every registry operation, whether it returns or raises, keeps the keys
    unique and the registry empty or within capacity, and leaves the
    capacity itself alone. *)
Lemma run_op_inv (o : op) (w : World) :
  registry_inv w ->
  registry_inv (run_op o w) /\
  max_sessions (manager (run_op o w)) = max_sessions (manager w).
Proof.
  intros Hinv. pose proof Hinv as [Hok Hcap].
  destruct (sweep_inv w 0 Hinv) as [Hnd1 Hcap1].
  destruct o as [sys path uuid4|sid|sid|]; simpl.
  - destruct (create_session sys path uuid4 w) as [[sid|e] w'] eqn:E.
    + pose proof (create_session_ok_bound _ _ _ _ _ _ Hinv E) as Hb.
      rewrite create_session_run in E by assumption. cbv zeta in E.
      destruct (max_sessions (manager w) <=? _).
      * destruct (oldest_id _) as [oldest|]; [|discriminate].
        destruct (dict_del oldest _) as [d2|] eqn:Ed; [|discriminate].
        inversion E; subst. simpl snd. rewrite world_with_registry in Hb.
        apply world_with_inv; [|now right].
        apply dict_set_NoDup. now apply (dict_del_NoDup _ _ _ Ed).
      * inversion E; subst. simpl snd. rewrite world_with_registry in Hb.
        apply world_with_inv; [|now right]. now apply dict_set_NoDup.
    + rewrite create_session_run in E by assumption. cbv zeta in E.
      destruct (max_sessions (manager w) <=? _); [|discriminate].
      destruct (oldest_id _) as [oldest|].
      * destruct (dict_del oldest _) as [d2|]; [discriminate|].
        inversion E; subst. simpl snd. now apply world_with_inv.
      * inversion E; subst. simpl snd. now apply world_with_inv.
  - destruct (dict_get sid (registry w)) as [s|] eqn:Hget.
    + destruct (Z_lt_le_dec (timeout (manager w))
                  (clock w (ticks w) - last_accessed s)) as [Hexp|Hlive].
      * destruct (get_session_stale _ _ _ Hget Hexp) as [d' [Hdel ->]].
        simpl snd. apply world_with_inv.
        -- now apply (dict_del_NoDup _ _ _ Hdel).
        -- apply dict_del_length in Hdel. destruct Hcap as [Hnil|Hcap].
           ++ rewrite Hnil in Hdel. discriminate.
           ++ right. lia.
      * rewrite (get_session_live _ _ _ Hget Hlive). simpl snd.
        apply world_with_inv; [now apply dict_set_NoDup|].
        right. rewrite dict_set_length. unfold dict_mem. rewrite Hget.
        destruct Hcap as [Hnil|Hcap]; [|assumption].
        rewrite Hnil in Hget. discriminate.
    + rewrite (get_session_absent _ _ Hget). auto.
  - rewrite close_session_run.
    destruct (dict_del sid (registry w)) as [d'|] eqn:Hdel; simpl snd; [|auto].
    apply world_with_inv.
    + now apply (dict_del_NoDup _ _ _ Hdel).
    + apply dict_del_length in Hdel. destruct Hcap as [Hnil|Hcap].
      * rewrite Hnil in Hdel. discriminate.
      * right. lia.
  - rewrite list_sessions_run by assumption. now apply world_with_inv.
Qed.

Lemma run_ops_inv (os : list op) :
  forall w, registry_inv w ->
  registry_inv (run_ops os w) /\
  max_sessions (manager (run_ops os w)) = max_sessions (manager w).
Proof.
  induction os as [|o rest IH]; intros w Hinv; [auto|].
  unfold run_ops in *. simpl.
  destruct (run_op_inv o w Hinv) as [Hinv' Hcap'].
  destruct (IH _ Hinv') as [H1 H2]. split; [assumption|congruence].
Qed.

Lemma init_world_inv (cap tmo : Z) (clk : nat -> Z) :
  registry_inv (init_world cap tmo clk).
Proof. split; [constructor|now left]. Qed.

(** C3. Start from the empty registry of a fresh manager and run any
    sequence of [create_session], [get_session], [close_session] and
    [list_sessions] calls; whenever a further [create_session] call returns,
    the registry holds at most [max_sessions] sessions. *)
Theorem create_session_within_capacity (cap tmo : Z) (clk : nat -> Z)
    (os : list op) (sys : System) (path uuid4 sid : string) (w' : World) :
  create_session sys path uuid4 (run_ops os (init_world cap tmo clk)) = (Ok sid, w') ->
  Z.of_nat (length (registry w')) <= cap.
Proof.
  intros H.
  destruct (run_ops_inv os _ (init_world_inv cap tmo clk)) as [Hinv Hcap].
  pose proof (create_session_ok_bound _ _ _ _ _ _ Hinv H) as Hb.
  rewrite Hcap in Hb. exact Hb.
Qed.


Lemma dict_del_get_None {A : Type} (k k' : string) (d d' : dict A) :
  dict_del k d = Some d' -> dict_get k' d = None -> dict_get k' d' = None.
Proof.
  intros Hdel Hnone. apply dict_get_None_keys. apply dict_get_None_keys in Hnone.
  intros Hin. apply Hnone. unfold dict_keys in *.
  apply in_map_iff in Hin. destruct Hin as [kv [E Hin]].
  apply in_map_iff. exists kv. split; [assumption|].
  now apply (dict_del_In k d d').
Qed.

Lemma sweep_get_None (clk : nat -> Z) (tmo t0 : Z) (d : dict Session)
    (n : nat) (sid : string) (s : Session) :
  NoDup (dict_keys d) ->
  (forall k, (n <= k)%nat -> t0 <= clk k) ->
  dict_get sid d = Some s -> tmo < t0 - last_accessed s ->
  dict_get sid (sweep clk n tmo d) = None.
Proof.
  intros Hnd Hclk Hget Hexp.
  destruct (dict_get sid (sweep clk n tmo d)) as [s'|] eqn:E; [|reflexivity].
  exfalso. apply dict_get_In in E.
  pose proof (sweep_removes clk tmo t0 d n sid s' Hclk E) as Hle.
  apply sweep_incl in E. apply (In_dict_get _ _ _ Hnd) in E.
  rewrite Hget in E. inversion E; subst. lia.
Qed.

(** C8, as the code has it. Take a session that, at an instant [t0] not
    later than any clock reading of the call, has been idle for longer than
    the timeout. It is gone from the registry after [list_sessions], after
    [create_session] (for a new id other than its own), and after a
    [get_session] that looks it up. *)
Theorem expired_swept_by_create_and_list (w : World) (t0 : Z) (sid : string)
    (s : Session) :
  registry_ok w ->
  (forall k, (ticks w <= k)%nat -> t0 <= clock w k) ->
  dict_get sid (registry w) = Some s ->
  timeout (manager w) < t0 - last_accessed s ->
  dict_get sid (registry (snd (list_sessions w))) = None /\
  (forall sys path uuid4, uuid4 <> sid ->
     dict_get sid (registry (snd (create_session sys path uuid4 w))) = None) /\
  dict_get sid (registry (snd (get_session sid w))) = None.
Proof.
  intros Hok Hclk Hget Hexp.
  pose proof (sweep_get_None (clock w) (timeout (manager w)) t0 (registry w)
                (ticks w) sid s Hok Hclk Hget Hexp) as Hswept.
  split; [|split].
  - rewrite list_sessions_run by assumption. exact Hswept.
  - intros sys path uuid4 Hne.
    rewrite create_session_run by assumption. cbv zeta.
    destruct (max_sessions (manager w) <=? _).
    + destruct (oldest_id _) as [oldest|e]; [|exact Hswept].
      destruct (dict_del oldest _) as [d2|] eqn:Ed; [|exact Hswept].
      simpl snd. rewrite world_with_registry.
      rewrite dict_get_set_neq by congruence.
      now apply (dict_del_get_None oldest sid _ d2 Ed).
    + simpl snd. rewrite world_with_registry.
      now rewrite dict_get_set_neq by congruence.
  - assert (Hnow : timeout (manager w) < clock w (ticks w) - last_accessed s).
    { specialize (Hclk (ticks w) (le_n _)). lia. }
    destruct (get_session_stale _ _ _ Hget Hnow) as [d' [Hdel ->]].
    simpl snd. rewrite world_with_registry.
    now apply (dict_del_NoDup _ _ _ Hdel).
Qed.

(** ** The [get_tds_results] tool *)

Lemma get_system_live (sid : string) (s : Session) (w : World) :
  dict_get sid (registry w) = Some s ->
  clock w (ticks w) - last_accessed s <= timeout (manager w) ->
  fst (get_system sid w) = Ok (Some (system s)).
Proof.
  intros Hget Hlive. unfold get_system, bind.
  now rewrite (get_session_live _ _ _ Hget Hlive).
Qed.

Lemma get_tds_results_live (sid : string) (s : Session) (tds : TDS_t)
    (variables : option (list string)) (mp : option Z) (w : World) :
  dict_get sid (registry w) = Some s ->
  clock w (ticks w) - last_accessed s <= timeout (manager w) ->
  sys_TDS (system s) = Some tds ->
  fst (get_tds_results sid variables mp w) =
  match serialize_tds_results (system s) variables
          (match mp with
           | None => Some MCPConfig.MAX_RESULT_POINTS
           | Some m => Some m
           end) with
  | Ok results => Ok (dict_set "success" (PBool true) results)
  | Raise e =>
      Ok [("success", PBool false);
          ("error", PStr ("Error retrieving TDS results: " ++ exn_str e)%string)]
  end.
Proof.
  intros Hget Hlive Ht. unfold get_tds_results, bind, get_system, bind.
  rewrite (get_session_live _ _ _ Hget Hlive). simpl. rewrite Ht.
  now destruct (serialize_tds_results _ _ _).
Qed.

(** C1, as the code has it. For a live session whose run is not
    initialized, [get_tds_results] returns exactly the fields
    [initialized = False], [error = "Time-domain simulation not
    initialized"] and [success = True]: no time axis, no variables, and a
    success flag that is set. *)
Theorem get_tds_results_uninitialized (sid : string) (s : Session)
    (tds : TDS_t) (variables : option (list string)) (mp : option Z)
    (w : World) :
  dict_get sid (registry w) = Some s ->
  clock w (ticks w) - last_accessed s <= timeout (manager w) ->
  sys_TDS (system s) = Some tds ->
  TDS_initialized tds = false ->
  fst (get_tds_results sid variables mp w) =
  Ok [("initialized", PBool false);
      ("error", PStr "Time-domain simulation not initialized");
      ("success", PBool true)].
Proof.
  intros Hget Hlive Ht Hi.
  rewrite (get_tds_results_live _ _ _ _ _ _ Hget Hlive Ht).
  unfold serialize_tds_results. rewrite Ht, Hi. reflexivity.
Qed.

(** C9. For a live session with an initialized run, a call with
    [max_points = 0] that reports success carries the full time axis, every
    selected variable at full length, [downsampled = False] and no
    [downsample_factor]; and under the engine's shape contract the call does
    report success. *)
Theorem zero_max_points_no_downsampling (sid : string) (s : Session)
    (tds : TDS_t) (variables : option (list string)) (w : World) :
  dict_get sid (registry w) = Some s ->
  clock w (ticks w) - last_accessed s <= timeout (manager w) ->
  sys_TDS (system s) = Some tds ->
  TDS_initialized tds = true ->
  let dae := sys_dae (system s) in
  (forall p,
     fst (get_tds_results sid variables (Some 0) w) = Ok p ->
     dict_get "success" p = Some (PBool true) ->
     dict_get "downsampled" p = Some (PBool false) /\
     dict_get "downsample_factor" p = None /\
     payload_time p = Some (ts_t dae) /\
     exists names src d,
       select_variables dae variables = Ok (names, src) /\
       payload_variables p = Some d /\
       (forall name data, In (name, data) d ->
          exists j, nth_error names j = Some name /\
                    variable_data src j = Ok data) /\
       (forall name, In name names -> dict_mem name d = true)) /\
  (shape_ok dae ->
   exists p,
     fst (get_tds_results sid variables (Some 0) w) = Ok p /\
     dict_get "success" p = Some (PBool true)).
Proof.
  intros Hget Hlive Ht Hi dae.
  rewrite (get_tds_results_live _ _ _ _ _ _ Hget Hlive Ht).
  split.
  - intros p Hp Hsucc.
    destruct (serialize_tds_results (system s) variables (Some 0))
      as [r|e] eqn:Eser.
    + inversion Hp; subst p. clear Hp.
      destruct (serialize_tds_results_inv _ _ _ _ _ Ht Hi Eser)
        as [names [src [t_out [d [Hsel [Hres [_ [_ [Htime [Hflag [Hfac [_ [Hd [Hsound Hmem]]]]]]]]]]]]]].
      assert (Hst : stride_of (Some 0) (length (ts_t (sys_dae (system s)))) = None)
        by reflexivity.
      rewrite Hst in *. simpl in Hres. inversion Hres; subst t_out.
      unfold payload_time, payload_variables.
      rewrite !dict_get_set_neq by discriminate.
      rewrite Hflag, Hfac, Htime, Hd.
      split; [reflexivity|]. split; [reflexivity|]. split; [reflexivity|].
      exists names, src, d. split; [assumption|]. split; [reflexivity|].
      split; [|assumption].
      intros name data Hin. destruct (Hsound name data Hin) as [j [col [Hj [Hc Hx]]]].
      simpl in Hx. inversion Hx; subst. eauto.
    + inversion Hp; subst p. simpl in Hsucc. discriminate.
  - intros Hshape.
    destruct (serialize_tds_results_returns (system s) tds variables (Some 0)
                Ht Hi Hshape) as [r ->].
    + intros m [= <-]. lia.
    + eexists. split; [reflexivity|]. apply dict_get_set_eq.
Qed.


(** How many points a downsampled time axis has: fewer than twice the
    bound, within the bound exactly when the bound divides the length, and
    fewer than the input exactly when the stride is at least 2. *)
Lemma downsampled_length (sys : System) (tds : TDS_t)
    (variables : option (list string)) (m : Z) (p : payload)
    (t_out : list V) :
  sys_TDS sys = Some tds -> TDS_initialized tds = true ->
  0 < m -> m < Z.of_nat (length (ts_t (sys_dae sys))) ->
  serialize_tds_results sys variables (Some m) = Ok p ->
  payload_time p = Some t_out ->
  let L := Z.of_nat (length (ts_t (sys_dae sys))) in
  1 <= L / m /\
  (2 <= L / m <-> 2 * m <= L) /\
  Z.of_nat (length t_out) < 2 * m /\
  (Z.of_nat (length t_out) <= m <-> L mod m = 0) /\
  (Z.of_nat (length t_out) < L <-> 2 <= L / m).
Proof.
  intros Ht Hi Hm HL H Hp L.
  destruct (payload_time_resample _ _ _ _ _ Ht Hi H) as [t0 [Hp0 Hres]].
  rewrite Hp in Hp0. inversion Hp0; subst t0. clear Hp0.
  rewrite stride_of_large in Hres by assumption. simpl in Hres.
  fold L in Hres, HL.
  pose proof (stride_pos L m Hm HL) as Hs.
  destruct (py_slice_step_pos_length (ts_t (sys_dae sys)) (L / m) ltac:(lia))
    as [sl [E Hlen]].
  rewrite E in Hres. inversion Hres; subst sl. clear Hres. fold L in Hlen.
  rewrite Hlen.
  split; [assumption|]. split; [now apply stride_ge_2_iff|].
  split; [now apply ceil_div_stride_lt|].
  split; [now apply ceil_div_stride_le_iff|].
  unfold ceil_div. split; intros Hc.
  - destruct (Z.eq_dec (L / m) 1) as [E1|]; [|lia].
    rewrite E1 in Hc. replace (L + 1 - 1) with L in Hc by lia.
    rewrite Z.div_1_r in Hc. lia.
  - apply Z.div_lt_upper_bound; [lia|]. nia.
Qed.


(** * Further properties of the registry *)

Lemma dict_del_absent {A : Type} (k : string) (d : dict A) :
  dict_get k d = None -> dict_del k d = None.
Proof.
  induction d as [|[k' v'] rest IH]; simpl; [reflexivity|].
  destruct (String.eqb k k'); [discriminate|].
  intros H. now rewrite IH.
Qed.

(** X1. [close_session sid] returns [True] exactly when [sid] is
    registered. When it has returned, [sid] is not registered, every other
    id resolves as before, and the clock has not been read. *)
Theorem close_session_spec (sid : string) (w : World) :
  registry_ok w ->
  exists w',
    close_session sid w = (Ok (dict_mem sid (registry w)), w') /\
    dict_get sid (registry w') = None /\
    (forall k, k <> sid -> dict_get k (registry w') = dict_get k (registry w)) /\
    ticks w' = ticks w.
Proof.
  intros Hok. rewrite close_session_run. unfold dict_mem.
  destruct (dict_get sid (registry w)) as [s|] eqn:Hget.
  - destruct (dict_del_present _ _ _ Hget) as [d' Hdel]. rewrite Hdel.
    eexists. split; [reflexivity|]. rewrite world_with_registry.
    split; [now apply (dict_del_NoDup _ _ _ Hdel)|].
    split; [|reflexivity].
    intros k Hk. now apply (dict_del_get_neq sid).
  - rewrite (dict_del_absent _ _ Hget). exists w. auto.
Qed.

(** X2. After [close_session sid], [get_session sid] and [get_system sid]
    return [None] and change nothing, whether or not [sid] had been
    registered. *)
Theorem close_then_get_not_found (sid : string) (w : World) :
  registry_ok w ->
  let w1 := snd (close_session sid w) in
  get_session sid w1 = (Ok None, w1) /\
  get_system sid w1 = (Ok None, w1).
Proof.
  intros Hok w1.
  assert (Hnone : dict_get sid (registry w1) = None).
  { unfold w1. rewrite close_session_run.
    destruct (dict_del sid (registry w)) as [d'|] eqn:Hdel; simpl snd.
    - rewrite world_with_registry. now apply (dict_del_NoDup _ _ _ Hdel).
    - destruct (dict_get sid (registry w)) as [s|] eqn:Hget; [|reflexivity].
      destruct (dict_del_present _ _ _ Hget) as [d' Hd]. congruence. }
  pose proof (get_session_absent _ _ Hnone) as Hg.
  split; [exact Hg|]. unfold get_system, bind. now rewrite Hg.
Qed.

(** What a returning [create_session] leaves behind. *)
Lemma create_session_ok_inv (sys : System) (path uuid4 r : string)
    (w w' : World) :
  registry_ok w ->
  create_session sys path uuid4 w = (Ok r, w') ->
  let n1 := (ticks w + length (registry w))%nat in
  r = uuid4 /\
  dict_get uuid4 (registry w') =
    Some (mkSession uuid4 sys path (clock w n1) (clock w (S n1))) /\
  ticks w' = S (S n1) /\
  clock w' = clock w /\
  timeout (manager w') = timeout (manager w) /\
  max_sessions (manager w') = max_sessions (manager w).
Proof.
  intros Hok H n1. rewrite create_session_run in H by assumption.
  cbv zeta in H. fold n1 in H.
  destruct (max_sessions (manager w) <=? _).
  - destruct (oldest_id _) as [oldest|]; [|discriminate].
    destruct (dict_del oldest _) as [d2|]; [|discriminate].
    injection H as <- <-. rewrite world_with_registry.
    split; [reflexivity|]. split; [apply dict_get_set_eq|]. auto.
  - injection H as <- <-. rewrite world_with_registry.
    split; [reflexivity|]. split; [apply dict_get_set_eq|]. auto.
Qed.

(** X3. When [create_session] returns, it returns the id it generated, the
    registry maps that id to a session holding the given system and path,
    stamped with the two clock readings taken after the sweep; and a
    [get_system] on that id, made before the timeout has run out, returns
    the system. *)
Theorem create_then_get_system (sys : System) (path uuid4 r : string)
    (w w' : World) :
  registry_ok w ->
  create_session sys path uuid4 w = (Ok r, w') ->
  r = uuid4 /\
  (exists s,
     dict_get uuid4 (registry w') = Some s /\
     session_id s = uuid4 /\ system s = sys /\ case_path s = path /\
     created_at s = clock w (ticks w + length (registry w)) /\
     last_accessed s = clock w (S (ticks w + length (registry w)))) /\
  (clock w' (ticks w')
     - clock w (S (ticks w + length (registry w))) <= timeout (manager w') ->
   fst (get_system uuid4 w') = Ok (Some sys)).
Proof.
  intros Hok H.
  destruct (create_session_ok_inv _ _ _ _ _ _ Hok H) as [Hr [Hget _]].
  split; [exact Hr|]. split.
  - eexists. split; [exact Hget|]. repeat split.
  - intros Hlive. now rewrite (get_system_live _ _ _ Hget Hlive).
Qed.

(** With a positive capacity, [create_session] returns in every world
    that satisfies the registry invariant. *)
Lemma create_session_returns (sys : System) (path uuid4 : string) (w : World) :
  registry_ok w -> 0 < max_sessions (manager w) ->
  exists w', create_session sys path uuid4 w = (Ok uuid4, w').
Proof.
  intros Hok Hcap. rewrite create_session_run by assumption. cbv zeta.
  set (d1 := sweep (clock w) (ticks w) (timeout (manager w)) (registry w)).
  destruct (Z.leb_spec (max_sessions (manager w)) (Z.of_nat (length d1)));
    [|eauto].
  assert (Hne : d1 <> []) by (intros E; rewrite E in *; simpl in *; lia).
  destruct (oldest_id_split d1 Hne) as [l1 [[vk vs] [l2 [E [-> _]]]]].
  simpl fst. rewrite E, dict_del_app; [eauto|].
  assert (Hnd : NoDup (dict_keys d1)) by now apply sweep_NoDup.
  rewrite E in Hnd. unfold dict_keys in *. rewrite map_app in Hnd.
  simpl in Hnd. apply NoDup_remove_2 in Hnd. intros Hin. apply Hnd.
  apply in_or_app. now left.
Qed.

(** X4. A manager whose capacity is zero or negative never holds a
    session: after any sequence of calls its registry is empty, and every
    [create_session] raises [ValueError]. *)
Theorem nonpositive_capacity_always_raises (cap tmo : Z) (clk : nat -> Z)
    (os : list op) (sys : System) (path uuid4 : string) :
  cap <= 0 ->
  registry (run_ops os (init_world cap tmo clk)) = [] /\
  fst (create_session sys path uuid4 (run_ops os (init_world cap tmo clk)))
    = Raise ValueError.
Proof.
  intros Hcap.
  assert (Hcreate : forall w, registry w = [] -> max_sessions (manager w) <= 0 ->
            forall sy pa u,
              fst (create_session sy pa u w) = Raise ValueError /\
              registry (snd (create_session sy pa u w)) = []).
  { intros w Hnil Hc sy pa u.
    assert (Hok : registry_ok w) by (unfold registry_ok; rewrite Hnil; constructor).
    rewrite create_session_run by assumption. cbv zeta. rewrite Hnil. simpl.
    destruct (Z.leb_spec (max_sessions (manager w)) 0); [|lia]. auto. }
  assert (Hstep : forall o w, registry w = [] -> max_sessions (manager w) <= 0 ->
            registry (run_op o w) = [] /\
            max_sessions (manager (run_op o w)) = max_sessions (manager w)).
  { intros o w Hnil Hc.
    assert (Hinv : registry_inv w).
    { split; [unfold registry_ok; rewrite Hnil; constructor|now left]. }
    destruct (run_op_inv o w Hinv) as [_ Hcfg]. split; [|exact Hcfg].
    destruct o as [sy pa u|sid|sid|]; simpl.
    - now apply Hcreate.
    - rewrite get_session_absent; [assumption|now rewrite Hnil].
    - rewrite close_session_run, Hnil. assumption.
    - rewrite list_sessions_run by apply Hinv. rewrite Hnil. reflexivity. }
  assert (Hall : forall l w, registry w = [] -> max_sessions (manager w) <= 0 ->
            registry (run_ops l w) = [] /\
            max_sessions (manager (run_ops l w)) <= 0).
  { induction l as [|o rest IH]; intros w Hnil Hc; [auto|].
    destruct (Hstep o w Hnil Hc) as [H1 H2].
    unfold run_ops in *. simpl. apply IH; [assumption|lia]. }
  destruct (Hall os (init_world cap tmo clk) eq_refl Hcap) as [Hnil Hc].
  split; [assumption|]. now apply Hcreate.
Qed.

(** X5. A manager with a positive capacity never refuses: after any
    sequence of calls, [create_session] returns the generated id, and the
    registry then maps that id to a session holding the given system. *)
Theorem positive_capacity_always_creates (cap tmo : Z) (clk : nat -> Z)
    (os : list op) (sys : System) (path uuid4 : string) :
  0 < cap ->
  exists w' s,
    create_session sys path uuid4 (run_ops os (init_world cap tmo clk))
      = (Ok uuid4, w') /\
    dict_get uuid4 (registry w') = Some s /\
    system s = sys /\ case_path s = path.
Proof.
  intros Hcap.
  destruct (run_ops_inv os _ (init_world_inv cap tmo clk)) as [[Hok _] Hcfg].
  simpl in Hcfg.
  destruct (create_session_returns sys path uuid4 _ Hok) as [w' Hrun];
    [lia|].
  destruct (create_session_ok_inv _ _ _ _ _ _ Hok Hrun) as [_ [Hget _]].
  exists w'. eexists. split; [exact Hrun|]. split; [exact Hget|]. auto.
Qed.


Lemma touched_touched (s : Session) (t1 t2 : Z) :
  touched (touched s t1) t2 = touched s t2.
Proof. reflexivity. Qed.

(** X6. A session that is looked up again and again, each time before the
    timeout has run out since the previous lookup, is never dropped, however
    long ago it was created: after [n + 1] calls of [get_session] it is
    still registered, unchanged but for [last_accessed], which is the
    reading stored by the last call. *)
Theorem repeated_get_keeps_session_alive (n : nat) :
  forall (sid : string) (s : Session) (w : World),
  dict_get sid (registry w) = Some s ->
  clock w (ticks w) - last_accessed s <= timeout (manager w) ->
  (forall k, (1 <= k <= n)%nat ->
     clock w (ticks w + 2 * k) - clock w (ticks w + 2 * k - 1)
       <= timeout (manager w)) ->
  dict_get sid (registry (run_ops (repeat (OpGet sid) (S n)) w)) =
  Some (touched s (clock w (ticks w + 2 * n + 1))).
Proof.
  induction n as [|n IH]; intros sid s w Hget Hlive Hgaps.
  - unfold run_ops. simpl. rewrite (get_session_live _ _ _ Hget Hlive).
    simpl snd. rewrite world_with_registry, dict_get_set_eq.
    do 2 f_equal. f_equal. lia.
  - change (repeat (OpGet sid) (S (S n)))
      with (OpGet sid :: repeat (OpGet sid) (S n)).
    unfold run_ops in *. cbn [fold_left run_op].
    rewrite (get_session_live _ _ _ Hget Hlive). simpl snd.
    set (s1 := touched s (clock w (S (ticks w)))).
    set (w1 := world_with w (dict_set sid s1 (registry w)) (S (S (ticks w)))).
    assert (Hget1 : dict_get sid (registry w1) = Some s1)
      by (unfold w1; rewrite world_with_registry; apply dict_get_set_eq).
    rewrite (IH sid s1 w1 Hget1).
    + unfold s1, w1. simpl. rewrite touched_touched. do 2 f_equal. f_equal. lia.
    + unfold w1, s1. simpl.
      specialize (Hgaps 1%nat ltac:(lia)).
      replace (ticks w + 2 * 1)%nat with (S (S (ticks w))) in Hgaps by lia.
      replace (S (S (ticks w)) - 1)%nat with (S (ticks w)) in Hgaps by lia.
      exact Hgaps.
    + intros k Hk. unfold w1. simpl.
      specialize (Hgaps (S k) ltac:(lia)).
      replace (ticks w + 2 * S k)%nat with (S (S (ticks w + 2 * k))) in Hgaps by lia.
      replace (S (S (ticks w + 2 * k)) - 1)%nat
        with (S (ticks w + 2 * k)) in Hgaps by lia.
      replace (S (S (ticks w)) + (k + (k + 0)))%nat
        with (S (S (ticks w + 2 * k))) by lia.
      replace (S (S (ticks w + 2 * k)) - 1)%nat
        with (S (ticks w + 2 * k)) by lia.
      exact Hgaps.
Qed.

Lemma dict_del_keys_incl {A : Type} (k : string) (d d' : dict A) :
  dict_del k d = Some d' -> forall x, In x (dict_keys d') -> In x (dict_keys d).
Proof.
  intros Hdel x Hin. unfold dict_keys in *.
  apply in_map_iff in Hin. destruct Hin as [kv [E Hin]].
  apply in_map_iff. exists kv. split; [assumption|].
  now apply (dict_del_In k d d').
Qed.

Lemma sweep_keys_incl (clk : nat -> Z) (tmo : Z) (d : dict Session) (n : nat) :
  forall x, In x (dict_keys (sweep clk n tmo d)) -> In x (dict_keys d).
Proof.
  intros x Hin. unfold dict_keys in *.
  apply in_map_iff in Hin. destruct Hin as [kv [E Hin]].
  apply in_map_iff. exists kv. split; [assumption|].
  now apply (sweep_incl clk tmo d n).
Qed.

Lemma dict_set_keys_incl {A : Type} (k : string) (v : A) (d : dict A) :
  forall x, In x (dict_keys (dict_set k v d)) -> x = k \/ In x (dict_keys d).
Proof.
  intros x. rewrite dict_keys_set. destruct (dict_mem k d); [now right|].
  intros Hin. apply in_app_or in Hin. destruct Hin as [H|[<-|[]]]; auto.
Qed.

(** X7. Only [create_session] adds an id, and only the one it generated:
    an id registered after a call was registered before it, unless the
    call is the [create_session] that generated it. *)
Theorem only_create_session_adds (o : op) (w : World) (k : string) :
  registry_ok w ->
  In k (dict_keys (registry (run_op o w))) ->
  In k (dict_keys (registry w)) \/
  (exists sys path, o = OpCreate sys path k).
Proof.
  intros Hok Hin. destruct o as [sys path uuid4|sid|sid|]; simpl in Hin.
  - rewrite create_session_run in Hin by assumption. cbv zeta in Hin.
    destruct (max_sessions (manager w) <=? _).
    + destruct (oldest_id _) as [oldest|].
      * destruct (dict_del oldest _) as [d2|] eqn:Ed; simpl snd in Hin;
          rewrite world_with_registry in Hin.
        -- apply dict_set_keys_incl in Hin. destruct Hin as [->|Hin]; [eauto|].
           left. apply (dict_del_keys_incl _ _ _ Ed) in Hin.
           now apply sweep_keys_incl in Hin.
        -- left. now apply sweep_keys_incl in Hin.
      * left. simpl snd in Hin. rewrite world_with_registry in Hin.
        now apply sweep_keys_incl in Hin.
    + simpl snd in Hin. rewrite world_with_registry in Hin.
      apply dict_set_keys_incl in Hin. destruct Hin as [->|Hin]; [eauto|].
      left. now apply sweep_keys_incl in Hin.
  - left. destruct (dict_get sid (registry w)) as [s|] eqn:Hget.
    + destruct (Z_lt_le_dec (timeout (manager w))
                  (clock w (ticks w) - last_accessed s)) as [Hexp|Hlive].
      * destruct (get_session_stale _ _ _ Hget Hexp) as [d' [Hdel Hrun]].
        rewrite Hrun in Hin. simpl snd in Hin.
        rewrite world_with_registry in Hin.
        now apply (dict_del_keys_incl _ _ _ Hdel).
      * rewrite (get_session_live _ _ _ Hget Hlive) in Hin. simpl snd in Hin.
        rewrite world_with_registry in Hin.
        apply dict_set_keys_incl in Hin. destruct Hin as [->|Hin]; [|assumption].
        apply dict_get_In in Hget. unfold dict_keys.
        apply in_map_iff. now exists (sid, s).
    + now rewrite (get_session_absent _ _ Hget) in Hin.
  - left. rewrite close_session_run in Hin.
    destruct (dict_del sid (registry w)) as [d'|] eqn:Hdel; simpl snd in Hin;
      [|assumption].
    rewrite world_with_registry in Hin.
    now apply (dict_del_keys_incl _ _ _ Hdel).
  - left. rewrite list_sessions_run in Hin by assumption.
    rewrite world_with_registry in Hin. now apply sweep_keys_incl in Hin.
Qed.



(** X8. Every session is registered under its own [session_id]: after any
    sequence of calls on a fresh manager, an entry of the registry under
    key [k] holds a session whose [session_id] is [k]. *)
Theorem registry_keys_are_session_ids (cap tmo : Z) (clk : nat -> Z)
    (os : list op) (k : string) (s : Session) :
  In (k, s) (registry (run_ops os (init_world cap tmo clk))) ->
  session_id s = k.
Proof.
  assert (Hset : forall (d : dict Session) u v,
            session_id v = u ->
            (forall k s, In (k, s) d -> session_id s = k) ->
            forall k s, In (k, s) (dict_set u v d) -> session_id s = k).
  { intros d u v Hv Hd k0 s0 Hin. apply dict_set_In in Hin.
    destruct Hin as [E|Hin]; [now inversion E; subst|now apply Hd]. }
  assert (Hstep : forall o w,
            registry_inv w ->
            (forall k s, In (k, s) (registry w) -> session_id s = k) ->
            forall k s, In (k, s) (registry (run_op o w)) -> session_id s = k).
  { intros o w [Hok _] Hkeyed k0 s0 Hin.
    destruct o as [sys path uuid4|sid|sid|]; simpl in Hin.
    - rewrite create_session_run in Hin by assumption. cbv zeta in Hin.
      destruct (max_sessions (manager w) <=? _).
      + destruct (oldest_id _) as [oldest|].
        * destruct (dict_del oldest _) as [d2|] eqn:Ed; simpl snd in Hin;
            rewrite world_with_registry in Hin.
          -- revert Hin. apply Hset; [reflexivity|].
             intros k1 s1 H1. apply Hkeyed.
             apply (dict_del_In _ _ _ Ed) in H1. now apply sweep_incl in H1.
          -- apply Hkeyed. now apply sweep_incl in Hin.
        * simpl snd in Hin. rewrite world_with_registry in Hin.
          apply Hkeyed. now apply sweep_incl in Hin.
      + simpl snd in Hin. rewrite world_with_registry in Hin.
        revert Hin. apply Hset; [reflexivity|].
        intros k1 s1 H1. apply Hkeyed. now apply sweep_incl in H1.
    - destruct (dict_get sid (registry w)) as [s1|] eqn:Hget.
      + destruct (Z_lt_le_dec (timeout (manager w))
                    (clock w (ticks w) - last_accessed s1)) as [Hexp|Hlive].
        * destruct (get_session_stale _ _ _ Hget Hexp) as [d' [Hdel Hrun]].
          rewrite Hrun in Hin. simpl snd in Hin.
          rewrite world_with_registry in Hin.
          apply Hkeyed. now apply (dict_del_In _ _ _ Hdel).
        * rewrite (get_session_live _ _ _ Hget Hlive) in Hin. simpl snd in Hin.
          rewrite world_with_registry in Hin.
          revert Hin. apply Hset; [|assumption].
          simpl. apply Hkeyed. now apply dict_get_In.
      + rewrite (get_session_absent _ _ Hget) in Hin. now apply Hkeyed.
    - rewrite close_session_run in Hin.
      destruct (dict_del sid (registry w)) as [d'|] eqn:Hdel; simpl snd in Hin;
        [|now apply Hkeyed].
      rewrite world_with_registry in Hin.
      apply Hkeyed. now apply (dict_del_In _ _ _ Hdel).
    - rewrite list_sessions_run in Hin by assumption.
      rewrite world_with_registry in Hin.
      apply Hkeyed. now apply sweep_incl in Hin. }
  assert (Hall : forall l w,
            registry_inv w ->
            (forall k s, In (k, s) (registry w) -> session_id s = k) ->
            forall k s, In (k, s) (registry (run_ops l w)) -> session_id s = k).
  { induction l as [|o rest IH]; intros w Hinv Hkeyed; [exact Hkeyed|].
    unfold run_ops in *. simpl. apply IH.
    - now apply run_op_inv.
    - now apply Hstep. }
  apply Hall; [apply init_world_inv|]. intros k0 s0 [].
Qed.


(** X10. [create_session] never evicts a session while the swept registry
    holds one that was accessed strictly earlier: such a session, if it is
    not the one the new id overwrites, is still registered, unchanged, when
    the call has returned or raised. *)
Theorem create_session_spares_newer (sys : System) (path uuid4 : string)
    (w : World) (sid sid' : string) (s s' : Session) :
  registry_ok w ->
  let swept := registry (snd (_cleanup_expired w)) in
  dict_get sid swept = Some s ->
  dict_get sid' swept = Some s' ->
  last_accessed s' < last_accessed s ->
  sid <> uuid4 ->
  dict_get sid (registry (snd (create_session sys path uuid4 w))) = Some s.
Proof.
  intros Hok swept Hs Hs' Hlt Hne.
  assert (Hswept : swept =
            sweep (clock w) (ticks w) (timeout (manager w)) (registry w)).
  { unfold swept. now rewrite _cleanup_expired_run. }
  rewrite create_session_run by assumption. cbv zeta. rewrite <- Hswept.
  destruct (max_sessions (manager w) <=? _).
  - assert (Hnil : swept <> []) by (intros E; rewrite E in Hs; discriminate).
    destruct (oldest_id_split swept Hnil) as [l1 [[vk vs] [l2 [E [Hold [H1 H2]]]]]].
    rewrite Hold. simpl fst.
    assert (Hnd : NoDup (dict_keys swept)).
    { rewrite Hswept. now apply sweep_NoDup. }
    assert (Hmin : last_accessed vs <= last_accessed s').
    { apply dict_get_In in Hs'. rewrite E in Hs'.
      apply in_app_or in Hs'. destruct Hs' as [Hin|[Eq|Hin]].
      - specialize (H1 _ Hin). simpl in H1. lia.
      - inversion Eq; subst. lia.
      - specialize (H2 _ Hin). simpl in H2. lia. }
    assert (Hvk : vk <> sid).
    { intros ->. assert (Hv : dict_get sid swept = Some vs).
      { apply In_dict_get; [assumption|]. rewrite E.
        apply in_or_app. right. now left. }
      rewrite Hs in Hv. inversion Hv; subst. lia. }
    destruct (dict_del vk swept) as [d2|] eqn:Ed; simpl snd;
      rewrite world_with_registry.
    + rewrite dict_get_set_neq by assumption.
      rewrite (dict_del_get_neq vk sid swept d2 Ed); [assumption|congruence].
    + assumption.
  - simpl snd. rewrite world_with_registry.
    now rewrite dict_get_set_neq by assumption.
Qed.


(** * Further properties of the time-domain serializer *)

(** The serializer of an initialized run, reduced to its last loop. *)
Lemma serialize_tds_results_loop (sys : System) (tds : TDS_t)
    (variables : option (list string)) (mp : option Z) (p : payload) :
  sys_TDS sys = Some tds -> TDS_initialized tds = true ->
  serialize_tds_results sys variables mp = Ok p ->
  exists names src r1,
    select_variables (sys_dae sys) variables = Ok (names, src) /\
    dict_get "variables" r1 = Some (PVars []) /\
    (forall data,
       downsample_data r1 data =
       resample (stride_of mp (length (ts_t (sys_dae sys)))) data) /\
    add_variables 0 names src r1 = Ok p.
Proof.
  intros Ht Hi H.
  unfold serialize_tds_results in H. rewrite Ht, Hi in H. simpl negb in H.
  cbv iota in H. unfold rbind in H.
  destruct (select_variables (sys_dae sys) variables) as [[names src]|] eqn:Esel;
    [|discriminate].
  unfold numpy_to_python in H at 1 2 3.
  match type of H with
  | match apply_downsampling _ _ ?r with _ => _ end = _ => set (r0 := r) in *
  end.
  destruct (apply_downsampling (ts_t (sys_dae sys)) mp r0) as [r1|] eqn:Eds;
    [|discriminate].
  apply apply_downsampling_inv in Eds. destruct Eds as [time_out [Hres Hr1]].
  simpl fst in H. simpl snd in H.
  exists names, src, r1. split; [reflexivity|]. split; [|split; [|exact H]].
  - subst r1. destruct (stride_of mp _);
      rewrite !dict_get_set_neq by discriminate; reflexivity.
  - apply downsample_data_resample; subst r1; destruct (stride_of mp _).
    + rewrite dict_get_set_neq by discriminate. apply dict_get_set_eq.
    + apply dict_get_set_eq.
    + apply dict_get_set_eq.
    + reflexivity.
Qed.

(** After the loop, a name's entry is the data of its last occurrence. *)
Lemma add_variables_last (src : var_source) (names : list string) :
  forall i r r' d,
  dict_get "variables" r = Some (PVars d) ->
  add_variables i names src r = Ok r' ->
  exists d',
    dict_get "variables" r' = Some (PVars d') /\
    (forall k, ~ In k names -> dict_get k d' = dict_get k d) /\
    (forall j name,
       nth_error names j = Some name ->
       ~ In name (skipn (S j) names) ->
       exists col data,
         variable_data src (i + j) = Ok col /\
         downsample_data r col = Ok data /\
         dict_get name d' = Some data).
Proof.
  induction names as [|name0 rest IH]; simpl; intros i r r' d Hd H.
  - inversion H; subst. exists d. split; [assumption|]. split; [auto|].
    intros j name Hj. now destruct j.
  - unfold rbind in H.
    destruct (variable_data src i) as [col|] eqn:Ecol; [|discriminate].
    destruct (downsample_data r col) as [data|] eqn:Eds; [|discriminate].
    destruct (set_variable name0 (numpy_to_python data) r) as [r1|] eqn:E;
      [|discriminate].
    apply set_variable_inv in E. destruct E as [d0 [Hd0 ->]].
    rewrite Hd in Hd0. inversion Hd0; subst d0. clear Hd0.
    assert (Hd1 : dict_get "variables"
                    (dict_set "variables" (PVars (dict_set name0 data d)) r)
                  = Some (PVars (dict_set name0 data d)))
      by apply dict_get_set_eq.
    destruct (IH _ _ _ _ Hd1 H) as [d' [Hd' [Hkeep Hlast]]].
    exists d'. split; [assumption|]. split.
    + intros k Hk. rewrite Hkeep by tauto.
      apply dict_get_set_neq. intros ->. apply Hk. now left.
    + intros j name Hj Hnot. destruct j as [|j].
      * simpl in Hj. injection Hj as ->. simpl in Hnot.
        exists col, data. rewrite Nat.add_0_r.
        split; [assumption|]. split; [assumption|].
        rewrite Hkeep by assumption. apply dict_get_set_eq.
      * simpl in Hj. simpl skipn in Hnot.
        destruct (Hlast j name Hj Hnot) as [c [x [Hc [Hx Hg]]]].
        exists c, x. rewrite Nat.add_succ_r. split; [assumption|].
        split; [|assumption].
        rewrite <- Hx. unfold downsample_data.
        now rewrite !dict_get_set_neq by discriminate.
Qed.

Lemma NoDup_nth_error_skipn {A : Type} (l : list A) :
  NoDup l -> forall j a, nth_error l j = Some a -> ~ In a (skipn (S j) l).
Proof.
  induction 1 as [|x l Hx Hnd IH]; intros j a Hj; [now destruct j|].
  destruct j as [|j]; simpl in *.
  - now injection Hj as ->.
  - now apply IH.
Qed.

(** X11. With [variables = None] and state names that are pairwise
    distinct, the payload has one entry per state name and no other: the
    [j]-th name maps to the [j]-th column of the state array, resampled at
    the stride in force. *)
Theorem state_names_map_to_their_columns (sys : System) (tds : TDS_t)
    (mp : option Z) (p : payload) :
  sys_TDS sys = Some tds -> TDS_initialized tds = true ->
  NoDup (x_name (sys_dae sys)) ->
  serialize_tds_results sys None mp = Ok p ->
  exists d,
    payload_variables p = Some d /\
    (forall j name,
       nth_error (x_name (sys_dae sys)) j = Some name ->
       exists col data,
         variable_data (FromArray (ts_x (sys_dae sys))) j = Ok col /\
         resample (stride_of mp (length (ts_t (sys_dae sys)))) col = Ok data /\
         dict_get name d = Some data) /\
    (forall name, ~ In name (x_name (sys_dae sys)) -> dict_get name d = None).
Proof.
  intros Ht Hi Hnd H.
  destruct (serialize_tds_results_loop _ _ _ _ _ Ht Hi H)
    as [names [src [r1 [Hsel [Hv [Hds Hloop]]]]]].
  simpl in Hsel. injection Hsel as <- <-.
  destruct (add_variables_last _ _ _ _ _ _ Hv Hloop) as [d [Hd [Hkeep Hlast]]].
  exists d. unfold payload_variables. rewrite Hd.
  split; [reflexivity|]. split.
  - intros j name Hj.
    destruct (Hlast j name Hj (NoDup_nth_error_skipn _ Hnd _ _ Hj))
      as [col [data [Hc [Hx Hg]]]].
    exists col, data. rewrite <- Hds. auto.
  - intros name Hnot. now rewrite Hkeep.
Qed.

Lemma filter_requested_inv (dae : DAE_t) (vs : list string) :
  forall names cols,
  filter_requested dae vs = Ok (names, cols) ->
  names = filter (known_name dae) vs /\
  Forall2 (fun name col => requested_column dae name = Ok col) names cols.
Proof.
  induction vs as [|v rest IH]; simpl; intros names cols H.
  - injection H as <- <-. split; [reflexivity|constructor].
  - unfold known_name at 1. unfold rbind in H.
    destruct (str_in v (x_name dae)) eqn:Ex; simpl orb.
    + destruct (str_index v (x_name dae)) as [idx|] eqn:Ei; [|discriminate].
      destruct (column (ts_x dae) idx) as [c|] eqn:Ec; [|discriminate].
      destruct (filter_requested dae rest) as [[ns cs]|]; [|discriminate].
      simpl in H. injection H as <- <-.
      destruct (IH _ _ eq_refl) as [-> Hall]. split; [reflexivity|].
      constructor; [|assumption].
      unfold requested_column. now rewrite Ex, Ei.
    + destruct (str_in v (y_name dae)) eqn:Ey.
      * destruct (str_index v (y_name dae)) as [idx|] eqn:Ei; [|discriminate].
        destruct (column (ts_y dae) idx) as [c|] eqn:Ec; [|discriminate].
        destruct (filter_requested dae rest) as [[ns cs]|]; [|discriminate].
        simpl in H. injection H as <- <-.
        destruct (IH _ _ eq_refl) as [-> Hall]. split; [reflexivity|].
        constructor; [|assumption].
        unfold requested_column. now rewrite Ex, Ei.
      * now apply IH.
Qed.

Lemma In_last_occurrence (name : string) (l : list string) :
  In name l ->
  exists j, nth_error l j = Some name /\ ~ In name (skipn (S j) l).
Proof.
  induction l as [|a rest IH]; [intros []|].
  intros Hin. destruct (in_dec string_dec name rest) as [Hrest|Hnot].
  - destruct (IH Hrest) as [j [Hj Hs]]. now exists (S j).
  - destruct Hin as [->|Hin]; [|contradiction]. now exists O.
Qed.

(** X12. With a list of requested names, the payload's variables are
    exactly the requested names that are state or algebraic names; the
    others are dropped without an error. Each kept name maps to its column
    resampled at the stride in force, and a name that is both a state and
    an algebraic name resolves to the state column. *)
Theorem requested_names_resolve (sys : System) (tds : TDS_t)
    (vs : list string) (mp : option Z) (p : payload) :
  sys_TDS sys = Some tds -> TDS_initialized tds = true ->
  serialize_tds_results sys (Some vs) mp = Ok p ->
  let dae := sys_dae sys in
  exists d,
    payload_variables p = Some d /\
    (forall name,
       dict_mem name d = true <->
       In name vs /\ known_name dae name = true) /\
    (forall name,
       In name vs -> known_name dae name = true ->
       exists col data,
         requested_column dae name = Ok col /\
         resample (stride_of mp (length (ts_t dae))) col = Ok data /\
         dict_get name d = Some data) /\
    (forall name idx,
       str_index name (x_name dae) = Some idx ->
       str_in name (x_name dae) = true ->
       requested_column dae name = column (ts_x dae) idx).
Proof.
  intros Ht Hi H dae. subst dae.
  destruct (serialize_tds_results_loop _ _ _ _ _ Ht Hi H)
    as [names [src [r1 [Hsel [Hv [Hds Hloop]]]]]].
  simpl in Hsel. unfold rbind in Hsel.
  destruct (filter_requested (sys_dae sys) vs) as [[ns cs]|] eqn:Ef;
    [|discriminate].
  simpl in Hsel. injection Hsel as <- <-.
  destruct (filter_requested_inv _ _ _ _ Ef) as [Hns Hall].
  destruct (add_variables_last _ _ _ _ _ _ Hv Hloop) as [d [Hd [Hkeep Hlast]]].
  assert (Hres : forall name, In name ns ->
            exists col data,
              requested_column (sys_dae sys) name = Ok col /\
              resample (stride_of mp (length (ts_t (sys_dae sys)))) col
                = Ok data /\
              dict_get name d = Some data).
  { intros name Hin.
    destruct (In_last_occurrence _ _ Hin) as [j [Hj Hs]].
    destruct (Hlast j name Hj Hs) as [col [data [Hc [Hx Hg]]]].
    exists col, data. split; [|split; [now rewrite <- Hds|assumption]].
    simpl in Hc. destruct (nth_error cs j) as [c|] eqn:Ecs; [|discriminate].
    injection Hc as ->.
    clear -Hall Hj Ecs. revert j Hj Ecs.
    induction Hall as [|n c ns cs Hnc Hall IH]; intros j Hj Ecs;
      [now destruct j|].
    destruct j as [|j]; simpl in *.
    - injection Hj as ->. injection Ecs as ->. exact Hnc.
    - now apply (IH j). }
  exists d. unfold payload_variables. rewrite Hd.
  split; [reflexivity|]. split; [|split].
  - intros name. rewrite <- filter_In. rewrite <- Hns. split.
    + intros Hm. destruct (in_dec string_dec name ns) as [Hin|Hnot];
        [assumption|].
      unfold dict_mem in Hm. rewrite (Hkeep name Hnot) in Hm. discriminate.
    + intros Hin. destruct (Hres name Hin) as [col [data [_ [_ Hg]]]].
      unfold dict_mem. now rewrite Hg.
  - intros name Hin Hk. apply Hres. rewrite Hns. apply filter_In. auto.
  - intros name idx Hidx Hin. unfold requested_column. now rewrite Hin, Hidx.
Qed.


Lemma neg_stride (len m : Z) : 0 < len -> m < 0 -> len / m < 0.
Proof.
  intros Hl Hm.
  pose proof (Z.div_mod len m ltac:(lia)) as E.
  pose proof (Z.mod_neg_bound len m Hm) as B.
  nia.
Qed.

Lemma nth_error_rev_head {A : Type} (l : list A) :
  nth_error (rev l) 0 = nth_error l (length l - 1).
Proof.
  induction l as [|a l' _] using rev_ind; [reflexivity|].
  rewrite rev_app_distr, length_app. simpl.
  replace (length l' + 1 - 1)%nat with (length l') by lia.
  rewrite nth_error_app2 by lia. now rewrite Nat.sub_diag.
Qed.

(** X13. A negative [max_points] is not rejected. On a non-empty series it
    takes the downsampling branch with a negative stride [k = len //
    max_points]: the payload says [downsampled = True], reports [k], and
    carries the time axis backwards, entry [i] being sample [i * |k|]
    counted from the end, so that the first time returned is the last
    time simulated. *)
Theorem negative_max_points_reverses (sys : System) (tds : TDS_t)
    (variables : option (list string)) (m : Z) (p : payload) :
  sys_TDS sys = Some tds -> TDS_initialized tds = true ->
  m < 0 -> ts_t (sys_dae sys) <> [] ->
  serialize_tds_results sys variables (Some m) = Ok p ->
  let time_array := ts_t (sys_dae sys) in
  let k := Z.of_nat (length time_array) / m in
  k < 0 /\
  dict_get "downsampled" p = Some (PBool true) /\
  dict_get "downsample_factor" p = Some (PInt k) /\
  exists t_out,
    payload_time p = Some t_out /\
    (forall i, nth_error t_out i =
               nth_error (rev time_array) (i * Z.to_nat (- k))) /\
    nth_error t_out 0 = nth_error time_array (length time_array - 1).
Proof.
  intros Ht Hi Hm Hne H time_array k.
  assert (Hlen : 0 < Z.of_nat (length time_array)).
  { unfold time_array. destruct (ts_t (sys_dae sys)); [congruence|simpl; lia]. }
  pose proof (neg_stride _ _ Hlen Hm) as Hk. fold k in Hk.
  destruct (serialize_tds_results_inv _ _ _ _ _ Ht Hi H)
    as [names [src [t_out [d [_ [Hres [_ [_ [Htime [Hflag [Hfac _]]]]]]]]]]].
  fold time_array in Hres, Hflag, Hfac.
  assert (Hst : stride_of (Some m) (length time_array) = Some k).
  { unfold stride_of, downsampling_applies.
    destruct (Z.eqb_spec m 0); [lia|].
    destruct (Z.ltb_spec m (Z.of_nat (length time_array))); [reflexivity|lia]. }
  rewrite Hst in Hres, Hfac. simpl in Hres, Hfac.
  split; [assumption|]. split.
  { rewrite Hflag. unfold downsampling_applies.
    destruct (Z.eqb_spec m 0); [lia|].
    destruct (Z.ltb_spec m (Z.of_nat (length time_array))); [reflexivity|lia]. }
  split; [assumption|].
  exists t_out. unfold payload_time. rewrite Htime. split; [reflexivity|].
  unfold py_slice_step in Hres.
  destruct (Z.eqb_spec k 0); [lia|].
  destruct (Z.ltb_spec 0 k); [lia|].
  injection Hres as <-.
  assert (Hnth : forall i,
            nth_error (every_nth (Z.to_nat (- k)) 0 (rev time_array)) i =
            nth_error (rev time_array) (i * Z.to_nat (- k))).
  { intros i. now rewrite every_nth_nth_error by lia. }
  split; [exact Hnth|].
  rewrite Hnth. simpl. apply nth_error_rev_head.
Qed.

(** [get_session] never raises. *)
Lemma get_session_returns (sid : string) (w : World) :
  exists r w', get_session sid w = (Ok r, w').
Proof.
  destruct (dict_get sid (registry w)) as [s|] eqn:Hget.
  - destruct (Z_lt_le_dec (timeout (manager w))
                (clock w (ticks w) - last_accessed s)) as [Hexp|Hlive].
    + destruct (get_session_stale _ _ _ Hget Hexp) as [d' [_ ->]]. eauto.
    + rewrite (get_session_live _ _ _ Hget Hlive). eauto.
  - rewrite (get_session_absent _ _ Hget). eauto.
Qed.

(** X14. For an id that is not registered, and for one whose session has
    been idle for longer than the timeout, [get_tds_results] returns
    exactly [success = False] with the error [Session not found: <id>];
    afterwards the id is not registered. *)
Theorem get_tds_results_not_found (sid : string)
    (variables : option (list string)) (mp : option Z) (w : World) :
  registry_ok w ->
  (dict_get sid (registry w) = None \/
   exists s, dict_get sid (registry w) = Some s /\
             timeout (manager w) < clock w (ticks w) - last_accessed s) ->
  exists w',
    get_tds_results sid variables mp w =
      (Ok [("success", PBool false);
           ("error", PStr ("Session not found: " ++ sid)%string)], w') /\
    dict_get sid (registry w') = None.
Proof.
  intros Hok [Hnone|[s [Hget Hexp]]].
  - exists w. unfold get_tds_results, bind, get_system, bind.
    rewrite (get_session_absent _ _ Hnone). simpl. auto.
  - destruct (get_session_stale _ _ _ Hget Hexp) as [d' [Hdel Hrun]].
    eexists. unfold get_tds_results, bind, get_system, bind.
    rewrite Hrun. simpl. split; [reflexivity|].
    now apply (dict_del_NoDup _ _ _ Hdel).
Qed.

(** X15. [get_tds_results] never raises: for every id, request and world
    it returns a payload. The payload carries [success = True], or
    [success = False] together with an [error] message. *)
Theorem get_tds_results_never_raises (sid : string)
    (variables : option (list string)) (mp : option Z) (w : World) :
  exists p w',
    get_tds_results sid variables mp w = (Ok p, w') /\
    (dict_get "success" p = Some (PBool true) \/
     (dict_get "success" p = Some (PBool false) /\
      exists msg, dict_get "error" p = Some (PStr msg))).
Proof.
  destruct (get_session_returns sid w) as [r [w' Hrun]].
  unfold get_tds_results, bind, get_system, bind. rewrite Hrun. simpl.
  destruct r as [s|]; simpl.
  - destruct (sys_TDS (system s)) as [tds|].
    + destruct (serialize_tds_results _ _ _) as [results|e].
      * eexists. eexists. split; [reflexivity|]. left. apply dict_get_set_eq.
      * eexists. eexists. split; [reflexivity|]. right. simpl. eauto.
    + eexists. eexists. split; [reflexivity|]. right. simpl. eauto.
  - eexists. eexists. split; [reflexivity|]. right. simpl. eauto.
Qed.


(** * Properties of [numpy_to_python] *)




(** The rank-1 float case: the list the time-domain serializer works on. *)
Lemma numpy_to_python_obj_rank1 (l : list V) :
  numpy_to_python_obj (ONdarray (NdAxis (map (fun v => NdItem (NpFloat v)) l)))
  = OList (map OFloat (numpy_to_python l)).
Proof.
  simpl. unfold numpy_to_python. f_equal. rewrite map_map. reflexivity.
Qed.






(** * Properties of the tools *)

(** X16. After any sequence of calls on a fresh manager, [list_sessions]
    returns rows with pairwise distinct ids, and no more rows than the
    capacity (none when the capacity is not positive). *)
Theorem list_sessions_rows_bounded (cap tmo : Z) (clk : nat -> Z)
    (os : list op) :
  exists rows w',
    list_sessions (run_ops os (init_world cap tmo clk)) = (Ok rows, w') /\
    NoDup (map (fun r : string * string * Z * Z => fst (fst (fst r))) rows) /\
    Z.of_nat (length rows) <= Z.max 0 cap.
Proof.
  destruct (run_ops_inv os _ (init_world_inv cap tmo clk)) as [Hinv Hcfg].
  simpl in Hcfg. set (w := run_ops os (init_world cap tmo clk)) in *.
  destruct (sweep_inv w 0 Hinv) as [Hnd Hcap]. destruct Hinv as [Hok _].
  unfold list_sessions, bind. rewrite _cleanup_expired_run by assumption.
  eexists. eexists. split; [reflexivity|]. cbn [world_with manager sessions].
  split.
  - rewrite map_map. exact Hnd.
  - rewrite length_map. destruct Hcap as [->|Hcap]; simpl; lia.
Qed.

(** X19. [list_tds_variables] never raises. It reports [success = True]
    exactly when the id names a session that has not timed out and whose
    system has an initialized time-domain routine; it then returns the
    state and algebraic names with their counts. In every other case it
    reports [success = False] with an error message. *)
Theorem list_tds_variables_success_iff (sid : string) (w : World) :
  exists p w',
    list_tds_variables sid w = (Ok p, w') /\
    (dict_get "success" p = Some (OBool true) <->
     exists s tds,
       dict_get sid (registry w) = Some s /\
       clock w (ticks w) - last_accessed s <= timeout (manager w) /\
       sys_TDS (system s) = Some tds /\ TDS_initialized tds = true) /\
    (forall s,
       dict_get sid (registry w) = Some s ->
       dict_get "success" p = Some (OBool true) ->
       let dae := sys_dae (system s) in
       dict_get "state_variables" p = Some (OList (map OStr (x_name dae))) /\
       dict_get "algebraic_variables" p = Some (OList (map OStr (y_name dae))) /\
       dict_get "n_states" p = Some (OInt (Z.of_nat (length (x_name dae)))) /\
       dict_get "n_algebraic" p = Some (OInt (Z.of_nat (length (y_name dae))))) /\
    (dict_get "success" p <> Some (OBool true) ->
     dict_get "success" p = Some (OBool false) /\
     exists msg, dict_get "error" p = Some (OStr msg)).
Proof.
  unfold list_tds_variables, bind, get_system, bind.
  destruct (dict_get sid (registry w)) as [s|] eqn:Hget.
  - destruct (Z_lt_le_dec (timeout (manager w))
                (clock w (ticks w) - last_accessed s)) as [Hexp|Hlive].
    + destruct (get_session_stale _ _ _ Hget Hexp) as [d' [_ ->]]. simpl.
      eexists. eexists. split; [reflexivity|]. split; [|split].
      * split; [discriminate|].
        intros [s0 [tds [E [Hl _]]]]. injection E as <-. lia.
      * discriminate.
      * intros _. simpl. eauto.
    + rewrite (get_session_live _ _ _ Hget Hlive). simpl.
      destruct (sys_TDS (system s)) as [tds|] eqn:Ht.
      * destruct (TDS_initialized tds) eqn:Hi; simpl;
          (eexists; eexists; split; [reflexivity|]; split; [|split]).
        -- split; [|reflexivity]. intros _. exists s, tds. auto.
        -- intros s0 E _. injection E as <-. simpl. auto.
        -- intros H. now contradiction H.
        -- split; [discriminate|].
           intros [s0 [tds0 [E [_ [Ht0 Hi0]]]]]. injection E as <-.
           rewrite Ht in Ht0. injection Ht0 as <-. congruence.
        -- discriminate.
        -- intros _. simpl. eauto.
      * eexists. eexists. split; [reflexivity|]. split; [|split].
        -- split; [discriminate|].
           intros [s0 [tds0 [E [_ [Ht0 _]]]]]. injection E as <-. congruence.
        -- discriminate.
        -- intros _. simpl. eauto.
  - rewrite (get_session_absent _ _ Hget). simpl.
    eexists. eexists. split; [reflexivity|]. split; [|split].
    + split; [discriminate|]. intros [s0 [tds [E _]]]. discriminate.
    + discriminate.
    + intros _. simpl. eauto.
Qed.

(** X20. The [close_session] tool reports [success = True] exactly when
    the id was registered; called a second time with the same id it
    reports [Session not found] and changes nothing. *)
Theorem tool_close_session_twice (sid : string) (w : World) :
  registry_ok w ->
  exists p w1,
    tool_close_session sid w = (Ok p, w1) /\
    dict_get "success" p = Some (OBool (dict_mem sid (registry w))) /\
    tool_close_session sid w1 =
      (Ok [("success", OBool false);
           ("error", OStr ("Session not found: " ++ sid)%string)], w1).
Proof.
  intros Hok.
  assert (Hgone : forall w0, dict_get sid (registry w0) = None ->
            tool_close_session sid w0 =
            (Ok [("success", OBool false);
                 ("error", OStr ("Session not found: " ++ sid)%string)], w0)).
  { intros w0 Hnone. unfold tool_close_session, bind.
    rewrite close_session_run, (dict_del_absent _ _ Hnone). reflexivity. }
  unfold dict_mem.
  destruct (dict_get sid (registry w)) as [s|] eqn:Hget.
  - destruct (dict_del_present _ _ _ Hget) as [d' Hdel].
    unfold tool_close_session at 1. unfold bind.
    rewrite close_session_run, Hdel. simpl.
    eexists. eexists. split; [reflexivity|]. split; [reflexivity|].
    apply Hgone. rewrite world_with_registry.
    now apply (dict_del_NoDup _ _ _ Hdel).
  - rewrite (Hgone w Hget). eexists. eexists.
    split; [reflexivity|]. split; [reflexivity|]. now apply Hgone.
Qed.


Lemma py_slice_step_length_eq {A : Type} (l1 l2 s1 s2 : list A) (step : Z) :
  length l1 = length l2 ->
  py_slice_step l1 step = Ok s1 -> py_slice_step l2 step = Ok s2 ->
  length s1 = length s2.
Proof.
  intros Hlen. unfold py_slice_step.
  destruct (Z.eqb_spec step 0); [discriminate|].
  destruct (Z.ltb_spec 0 step); intros [= <-] [= <-].
  - rewrite !every_nth_length by lia. now rewrite Hlen.
  - rewrite !every_nth_length by lia. now rewrite !length_rev, Hlen.
Qed.

(** X21. Under the engine's shape contract, every variable array of a
    payload has exactly as many entries as the payload's time axis,
    whatever the bound: none, zero, positive or negative, downsampled or
    not. *)
Theorem payload_arrays_have_equal_length (sys : System) (tds : TDS_t)
    (variables : option (list string)) (mp : option Z) (p : payload) :
  sys_TDS sys = Some tds -> TDS_initialized tds = true ->
  shape_ok (sys_dae sys) ->
  serialize_tds_results sys variables mp = Ok p ->
  exists t_out d,
    payload_time p = Some t_out /\
    payload_variables p = Some d /\
    (forall name data, In (name, data) d -> length data = length t_out).
Proof.
  intros Ht Hi Hshape H.
  destruct (serialize_tds_results_inv _ _ _ _ _ Ht Hi H)
    as [names [src [t_out [d [Hsel [Hres [_ [_ [Htime [_ [_ [_ [Hd [Hsound _]]]]]]]]]]]]]].
  destruct (select_variables_ok (sys_dae sys) variables Hshape)
    as [names' [src' [Hsel' [_ Hlen]]]].
  rewrite Hsel in Hsel'. injection Hsel' as <- <-.
  exists t_out, d. unfold payload_time, payload_variables.
  rewrite Htime, Hd. split; [reflexivity|]. split; [reflexivity|].
  intros name data Hin.
  destruct (Hsound name data Hin) as [j [col [_ [Hc Hx]]]].
  specialize (Hlen j col Hc).
  unfold resample in *.
  destruct (stride_of mp (length (ts_t (sys_dae sys)))) as [k|].
  - now apply (py_slice_step_length_eq col (ts_t (sys_dae sys)) data t_out k).
  - injection Hx as <-. injection Hres as <-. exact Hlen.
Qed.

End Andes.

(** * Concrete runs

    Samples are integers here; the clock reads [5000], [5001], ... or
    [0], [1], ... *)

Local Open Scope list_scope.

#[local, warning="-notation-for-abbreviation"] Notation ex_str := (fun _ : exn => "exception").

#[local, warning="-notation-for-abbreviation"] Notation ex_tds := (mkTDS (V:=Z) true false (Some 1)).

#[local, warning="-notation-for-abbreviation"] Notation ex_sys3 :=
  (mkSystem (Some ex_tds)
     (mkDAE [0; 1; 2] (Arr2 [[5; 6; 7]]) (Arr2 []) ["omega"] [])).

#[local, warning="-notation-for-abbreviation"] Notation ex_sys5 :=
  (mkSystem (Some ex_tds)
     (mkDAE [0; 1; 2; 3; 4]
        (Arr2 [[50; 51; 52; 53; 54]; [60; 61; 62; 63; 64]])
        (Arr2 [[70; 71; 72; 73; 74]]) ["delta"; "omega"] ["v"])).

#[local, warning="-notation-for-abbreviation"] Notation ex_tds0 := (mkTDS (V:=Z) false false None).

#[local, warning="-notation-for-abbreviation"] Notation ex_sys0 :=
  (mkSystem (Some ex_tds0) (mkDAE [] (Arr2 []) (Arr2 []) [] [])).

#[local, warning="-notation-for-abbreviation"] Notation ex_a := (mkSession "a" ex_sys0 "a.xlsx" 0 0).

#[local, warning="-notation-for-abbreviation"] Notation ex_b := (mkSession "b" ex_sys5 "b.xlsx" 4000 4000).

(** Two sessions at clock 5000 under a timeout of 3600: [a] has been idle
    for 5000, [b] for 1000. *)
#[local, warning="-notation-for-abbreviation"] Notation ex_world :=
  (mkWorld (mkSessionManager [("a", ex_a); ("b", ex_b)] 100 3600)
           (fun n : nat => 5000 + Z.of_nat n) 0).

(** The scenario of capacity 2: sessions [A] and [B] created in turn. *)
#[local, warning="-notation-for-abbreviation"] Notation ex_full :=
  (run_ops [OpCreate ex_sys0 "a.xlsx" "A"; OpCreate ex_sys0 "b.xlsx" "B"]
           (init_world 2 3600 (fun n : nat => Z.of_nat n))).

Lemma ex_world_ok : registry_ok ex_world.
Proof.
  unfold registry_ok. simpl.
  repeat constructor; simpl; intuition discriminate.
Defined.

Lemma ex_full_ok : registry_ok ex_full.
Proof.
  unfold registry_ok. vm_compute.
  repeat constructor; simpl; intuition discriminate.
Defined.

Lemma ex_sys5_shape : shape_ok (sys_dae ex_sys5).
Proof. repeat split; repeat constructor. Defined.

Lemma get_tds_results_uninitialized_witness :
  fst (get_tds_results ex_str "a" None None
         (mkWorld (mkSessionManager [("a", ex_a)] 100 3600)
                  (fun n : nat => Z.of_nat n) 2)) =
  Ok [("initialized", PBool false);
      ("error", PStr "Time-domain simulation not initialized");
      ("success", PBool true)].
Proof.
  apply (get_tds_results_uninitialized ex_str "a" ex_a ex_tds0 None None);
    [reflexivity | simpl; lia | reflexivity | reflexivity].
Defined.

(** C2, at a run of three points under [max_points = 2]: the stride is
    [3 // 2 = 1] and all three points come back, one more than the bound. *)
Theorem stride_one_exceeds_max_points :
  serialize_tds_results ex_sys3 None (Some 2) =
  Ok [("initialized", PBool true); ("converged", PBool true);
      ("exec_time", PFloat 1); ("time", PList [0; 1; 2]);
      ("n_points", PInt 3); ("variables", PVars [("omega", [5; 6; 7])]);
      ("downsampled", PBool true); ("downsample_factor", PInt 1)].
Proof. reflexivity. Qed.

(** C10, at the same run: the payload says [downsampled = True] while
    [n_points] equals, and so does not exceed, the number of time points
    returned. *)
Theorem n_points_equals_returned_length_at_stride_one :
  exists p t_out,
    serialize_tds_results ex_sys3 None (Some 2) = Ok p /\
    dict_get "downsampled" p = Some (PBool true) /\
    dict_get "n_points" p = Some (PInt 3) /\
    payload_time p = Some t_out /\
    Z.of_nat (length t_out) = 3.
Proof.
  eexists. eexists. split; [reflexivity|].
  split; [reflexivity|]. split; [reflexivity|]. split; reflexivity.
Qed.

Lemma create_session_within_capacity_witness :
  Z.of_nat (length (registry (snd (create_session ex_sys0 "c.xlsx" "C" ex_full))))
  <= 2.
Proof.
  apply (create_session_within_capacity 2 3600 (fun n : nat => Z.of_nat n)
           [OpCreate ex_sys0 "a.xlsx" "A"; OpCreate ex_sys0 "b.xlsx" "B"]
           ex_sys0 "c.xlsx" "C" "C").
  reflexivity.
Defined.

Lemma create_session_evicts_oldest_witness :
  exists l1 victim l2 w' s,
    registry (snd (_cleanup_expired ex_full)) = l1 ++ victim :: l2 /\
    (forall kv, In kv l1 -> last_accessed (snd victim) < last_accessed (snd kv)) /\
    (forall kv, In kv l2 -> last_accessed (snd victim) <= last_accessed (snd kv)) /\
    create_session ex_sys0 "c.xlsx" "C" ex_full = (Ok "C", w') /\
    session_id s = "C" /\ system s = ex_sys0 /\ case_path s = "c.xlsx" /\
    registry w' = dict_set "C" s (l1 ++ l2) /\
    length (l1 ++ l2) =
      (length (registry (snd (_cleanup_expired ex_full))) - 1)%nat.
Proof.
  apply (create_session_evicts_oldest ex_sys0 "c.xlsx" "C" ex_full ex_full_ok).
  - vm_compute. discriminate.
  - vm_compute. discriminate.
Defined.

Lemma downsampler_idempotent_witness :
  (5 <= 2 -> [0; 2; 4] = [0; 1; 2; 3; 4]) /\
  (0 < 2 -> 2 < 5 -> Z.of_nat (length [0; 2; 4]) = ceil_div 5 (5 / 2)) /\
  (forall (sys' : System) (tds' : TDS_t) (variables' : option (list string))
          (p' : payload),
     sys_TDS sys' = Some tds' -> TDS_initialized tds' = true ->
     ts_t (sys_dae sys') = [0; 2; 4] ->
     serialize_tds_results sys' variables' (Some 2) = Ok p' ->
     payload_time p' = Some [0; 2; 4]).
Proof.
  apply (downsampler_idempotent ex_sys5 ex_tds None 2
           [("initialized", PBool true); ("converged", PBool true);
            ("exec_time", PFloat 1); ("time", PList [0; 2; 4]);
            ("n_points", PInt 5);
            ("variables",
              PVars [("delta", [50; 52; 54]); ("omega", [60; 62; 64])]);
            ("downsampled", PBool true); ("downsample_factor", PInt 2)]
           [0; 2; 4]);
    [reflexivity | reflexivity | lia | reflexivity | reflexivity].
Defined.

#[local, warning="-notation-for-abbreviation"] Notation ex_payload :=
  [("initialized", PBool true); ("converged", PBool true);
   ("exec_time", PFloat 1); ("time", PList [0; 2; 4]);
   ("n_points", PInt 5);
   ("variables", PVars [("v", [70; 72; 74]); ("omega", [60; 62; 64])]);
   ("downsampled", PBool true); ("downsample_factor", PInt 2)].

Lemma shared_stride_alignment_witness :
  exists names src t_out d,
    select_variables (sys_dae ex_sys5) (Some ["v"; "nope"; "omega"])
      = Ok (names, src) /\
    dict_get "downsampled" ex_payload = Some (PBool true) /\
    dict_get "downsample_factor" ex_payload = Some (PInt 2) /\
    payload_time ex_payload = Some t_out /\
    payload_variables ex_payload = Some d /\
    (forall i, nth_error t_out i = nth_error [0; 1; 2; 3; 4] (i * 2)%nat) /\
    (forall name data, In (name, data) d ->
       exists j col,
         nth_error names j = Some name /\
         variable_data src j = Ok col /\
         length data = length t_out /\
         (forall i, nth_error data i = nth_error col (i * 2)%nat)).
Proof.
  apply (shared_stride_alignment ex_sys5 ex_tds (Some ["v"; "nope"; "omega"]) 2
           ex_payload);
    [reflexivity | reflexivity | exact ex_sys5_shape | lia | simpl; lia
    | reflexivity].
Defined.

Lemma get_session_cases_witness :
  exists s' w',
    get_session "b" ex_world = (Ok (Some s'), w') /\
    s' = touched ex_b 5001 /\
    last_accessed s' = 5001 /\
    dict_get "b" (registry w') = Some s' /\
    (forall k, k <> "b" ->
               dict_get k (registry w') = dict_get k (registry ex_world)).
Proof. exact (get_session_cases "b" ex_world ex_world_ok). Defined.

(** C8 fails for [close_session] and [get_session]: session [a] is idle for
    longer than the timeout when either call begins, and is still in the
    registry when the call has returned. *)
Lemma close_and_get_keep_expired_session :
  timeout (manager ex_world)
    < clock ex_world (ticks ex_world) - last_accessed ex_a /\
  dict_get "a" (registry ex_world) = Some ex_a /\
  fst (close_session "b" ex_world) = Ok true /\
  dict_get "a" (registry (snd (close_session "b" ex_world))) = Some ex_a /\
  fst (get_session "b" ex_world) = Ok (Some (touched ex_b 5001)) /\
  dict_get "a" (registry (snd (get_session "b" ex_world))) = Some ex_a.
Proof. repeat split; reflexivity. Qed.

Lemma expired_swept_by_create_and_list_witness :
  dict_get "a" (registry (snd (list_sessions ex_world))) = None /\
  (forall sys path uuid4, uuid4 <> "a" ->
     dict_get "a" (registry (snd (create_session sys path uuid4 ex_world)))
       = None) /\
  dict_get "a" (registry (snd (get_session "a" ex_world))) = None.
Proof.
  apply (expired_swept_by_create_and_list ex_world 5000 "a" ex_a ex_world_ok).
  - intros k Hk. change (5000 <= 5000 + Z.of_nat k). lia.
  - reflexivity.
  - simpl. lia.
Defined.

Lemma zero_max_points_no_downsampling_witness :
  (forall p,
     fst (get_tds_results ex_str "b" None (Some 0) ex_world) = Ok p ->
     dict_get "success" p = Some (PBool true) ->
     dict_get "downsampled" p = Some (PBool false) /\
     dict_get "downsample_factor" p = None /\
     payload_time p = Some [0; 1; 2; 3; 4] /\
     exists names src d,
       select_variables (sys_dae ex_sys5) None = Ok (names, src) /\
       payload_variables p = Some d /\
       (forall name data, In (name, data) d ->
          exists j, nth_error names j = Some name /\
                    variable_data src j = Ok data) /\
       (forall name, In name names -> dict_mem name d = true)) /\
  (shape_ok (sys_dae ex_sys5) ->
   exists p,
     fst (get_tds_results ex_str "b" None (Some 0) ex_world) = Ok p /\
     dict_get "success" p = Some (PBool true)).
Proof.
  apply (zero_max_points_no_downsampling ex_str "b" ex_b ex_tds None ex_world);
    [reflexivity | simpl; lia | reflexivity | reflexivity].
Defined.

(** ** Concrete runs of the further properties *)

#[local, warning="-notation-for-abbreviation"] Notation ex_A := (mkSession "A" ex_sys0 "a.xlsx" 0 1).

#[local, warning="-notation-for-abbreviation"] Notation ex_B := (mkSession "B" ex_sys0 "b.xlsx" 3 4).

#[local, warning="-notation-for-abbreviation"] Notation ex_created :=
  (snd (create_session ex_sys0 "c.xlsx" "C" ex_full)).

#[local, warning="-notation-for-abbreviation"] Notation ex_payload_all :=
  [("initialized", PBool true); ("converged", PBool true);
   ("exec_time", PFloat 1); ("time", PList [0; 2; 4]);
   ("n_points", PInt 5);
   ("variables", PVars [("delta", [50; 52; 54]); ("omega", [60; 62; 64])]);
   ("downsampled", PBool true); ("downsample_factor", PInt 2)].

#[local, warning="-notation-for-abbreviation"] Notation ex_payload_neg :=
  [("initialized", PBool true); ("converged", PBool true);
   ("exec_time", PFloat 1); ("time", PList [4; 1]);
   ("n_points", PInt 5);
   ("variables", PVars [("delta", [54; 51]); ("omega", [64; 61])]);
   ("downsampled", PBool true); ("downsample_factor", PInt (-3))].

Lemma close_session_spec_witness :
  exists w',
    close_session "b" ex_world = (Ok (dict_mem "b" (registry ex_world)), w') /\
    dict_get "b" (registry w') = None /\
    (forall k, k <> "b" ->
               dict_get k (registry w') = dict_get k (registry ex_world)) /\
    ticks w' = ticks ex_world.
Proof. exact (close_session_spec "b" ex_world ex_world_ok). Defined.

Lemma close_then_get_not_found_witness :
  let w1 := snd (close_session "a" ex_world) in
  get_session "a" w1 = (Ok None, w1) /\
  get_system "a" w1 = (Ok None, w1).
Proof. exact (close_then_get_not_found "a" ex_world ex_world_ok). Defined.

Lemma create_then_get_system_witness :
  "C" = "C" /\
  (exists s,
     dict_get "C" (registry ex_created) = Some s /\
     session_id s = "C" /\ system s = ex_sys0 /\ case_path s = "c.xlsx" /\
     created_at s = 7 /\ last_accessed s = 8) /\
  (clock ex_created (ticks ex_created) - 8 <= timeout (manager ex_created) ->
   fst (get_system "C" ex_created) = Ok (Some ex_sys0)).
Proof.
  exact (create_then_get_system ex_sys0 "c.xlsx" "C" "C" ex_full ex_created
           ex_full_ok eq_refl).
Defined.

Lemma nonpositive_capacity_always_raises_witness :
  registry (run_ops [OpCreate ex_sys0 "a.xlsx" "A"; OpList]
                    (init_world 0 3600 (fun n : nat => Z.of_nat n))) = [] /\
  fst (create_session ex_sys0 "b.xlsx" "B"
         (run_ops [OpCreate ex_sys0 "a.xlsx" "A"; OpList]
                  (init_world 0 3600 (fun n : nat => Z.of_nat n))))
    = Raise ValueError.
Proof.
  apply (nonpositive_capacity_always_raises 0 3600 (fun n : nat => Z.of_nat n)
           [OpCreate ex_sys0 "a.xlsx" "A"; OpList] ex_sys0 "b.xlsx" "B").
  lia.
Defined.

Lemma positive_capacity_always_creates_witness :
  exists w' s,
    create_session ex_sys0 "c.xlsx" "C" ex_full = (Ok "C", w') /\
    dict_get "C" (registry w') = Some s /\
    system s = ex_sys0 /\ case_path s = "c.xlsx".
Proof.
  apply (positive_capacity_always_creates 2 3600 (fun n : nat => Z.of_nat n)
           [OpCreate ex_sys0 "a.xlsx" "A"; OpCreate ex_sys0 "b.xlsx" "B"]
           ex_sys0 "c.xlsx" "C").
  lia.
Defined.

Lemma repeated_get_keeps_session_alive_witness :
  dict_get "b" (registry (run_ops (repeat (OpGet (V:=Z) "b") 3) ex_world)) =
  Some (touched ex_b 5005).
Proof.
  apply (repeated_get_keeps_session_alive 2 "b" ex_b ex_world).
  - reflexivity.
  - simpl. lia.
  - intros k Hk. cbn [clock ticks timeout manager]. lia.
Defined.

Lemma only_create_session_adds_witness :
  In "a" (dict_keys (registry ex_world)) \/
  (exists sys path, OpGet (V:=Z) "b" = OpCreate sys path "a").
Proof.
  apply (only_create_session_adds (OpGet "b") ex_world "a" ex_world_ok).
  vm_compute. left. reflexivity.
Defined.

Lemma registry_keys_are_session_ids_witness : session_id ex_A = "A".
Proof.
  apply (registry_keys_are_session_ids 2 3600 (fun n : nat => Z.of_nat n)
           [OpCreate ex_sys0 "a.xlsx" "A"; OpCreate ex_sys0 "b.xlsx" "B"]
           "A" ex_A).
  vm_compute. left. reflexivity.
Defined.


Lemma create_session_spares_newer_witness :
  dict_get "B" (registry ex_created) = Some ex_B.
Proof.
  apply (create_session_spares_newer ex_sys0 "c.xlsx" "C" ex_full
           "B" "A" ex_B ex_A ex_full_ok).
  - reflexivity.
  - reflexivity.
  - simpl. lia.
  - discriminate.
Defined.

Lemma ex_sys5_names : NoDup (x_name (sys_dae ex_sys5)).
Proof. simpl. repeat constructor; simpl; intuition discriminate. Defined.

Lemma state_names_map_to_their_columns_witness :
  exists d,
    payload_variables ex_payload_all = Some d /\
    (forall j name,
       nth_error (x_name (sys_dae ex_sys5)) j = Some name ->
       exists col data,
         variable_data (FromArray (ts_x (sys_dae ex_sys5))) j = Ok col /\
         resample (stride_of (Some 2) (length (ts_t (sys_dae ex_sys5)))) col
           = Ok data /\
         dict_get name d = Some data) /\
    (forall name, ~ In name (x_name (sys_dae ex_sys5)) ->
                  dict_get name d = None).
Proof.
  exact (state_names_map_to_their_columns ex_sys5 ex_tds (Some 2)
           ex_payload_all eq_refl eq_refl ex_sys5_names eq_refl).
Defined.

Lemma requested_names_resolve_witness :
  let dae := sys_dae ex_sys5 in
  exists d,
    payload_variables ex_payload = Some d /\
    (forall name,
       dict_mem name d = true <->
       In name ["v"; "nope"; "omega"] /\ known_name dae name = true) /\
    (forall name,
       In name ["v"; "nope"; "omega"] -> known_name dae name = true ->
       exists col data,
         requested_column dae name = Ok col /\
         resample (stride_of (Some 2) (length (ts_t dae))) col = Ok data /\
         dict_get name d = Some data) /\
    (forall name idx,
       str_index name (x_name dae) = Some idx ->
       str_in name (x_name dae) = true ->
       requested_column dae name = column (ts_x dae) idx).
Proof.
  exact (requested_names_resolve ex_sys5 ex_tds ["v"; "nope"; "omega"]
           (Some 2) ex_payload eq_refl eq_refl eq_refl).
Defined.

Lemma negative_max_points_reverses_witness :
  let time_array := ts_t (sys_dae ex_sys5) in
  let k := Z.of_nat (length time_array) / (-2) in
  k < 0 /\
  dict_get "downsampled" ex_payload_neg = Some (PBool true) /\
  dict_get "downsample_factor" ex_payload_neg = Some (PInt k) /\
  exists t_out,
    payload_time ex_payload_neg = Some t_out /\
    (forall i, nth_error t_out i =
               nth_error (rev time_array) (i * Z.to_nat (- k))) /\
    nth_error t_out 0 = nth_error time_array (length time_array - 1).
Proof.
  apply (negative_max_points_reverses ex_sys5 ex_tds None (-2) ex_payload_neg);
    [reflexivity | reflexivity | lia | discriminate | reflexivity].
Defined.

Lemma get_tds_results_not_found_witness :
  exists w',
    get_tds_results ex_str "a" None None ex_world =
      (Ok [("success", PBool false);
           ("error", PStr ("Session not found: " ++ "a")%string)], w') /\
    dict_get "a" (registry w') = None.
Proof.
  apply (get_tds_results_not_found ex_str "a" None None ex_world ex_world_ok).
  right. exists ex_a. split; [reflexivity|]. simpl. lia.
Defined.

Lemma tool_close_session_twice_witness :
  exists p w1,
    tool_close_session "b" ex_world = (Ok p, w1) /\
    dict_get "success" p = Some (OBool (dict_mem "b" (registry ex_world))) /\
    tool_close_session "b" w1 =
      (Ok [("success", OBool false);
           ("error", OStr ("Session not found: " ++ "b")%string)], w1).
Proof. exact (tool_close_session_twice "b" ex_world ex_world_ok). Defined.

Lemma payload_arrays_have_equal_length_witness :
  exists t_out d,
    payload_time ex_payload_neg = Some t_out /\
    payload_variables ex_payload_neg = Some d /\
    (forall name data, In (name, data) d -> length data = length t_out).
Proof.
  exact (payload_arrays_have_equal_length ex_sys5 ex_tds None (Some (-2))
           ex_payload_neg eq_refl eq_refl ex_sys5_shape eq_refl).
Defined.
